(** * Perfect SPA demo server: request routing and startup

    A shallow embedding of [server-perfect.py] (the enhanced handler
    [PerfectSPAHandler] and [main]) and of [simple-server.py] (the minimal
    handler [SimpleHandler]).

    The request target [self.path] is the latin-1 decoding of the bytes of
    the request line, so a Python [str] of that kind is a Rocq [string],
    one [ascii] per character.  The pieces of CPython's standard library
    the handlers call ([urllib.parse.urlparse], [http.server]) are modelled
    next to the code that uses them; what the operating system answers
    (which files exist, what the clock says, whether the port can be bound)
    is an explicit parameter. *)

From Stdlib Require Import String Ascii List ZArith Lia Bool DecimalString.
Import ListNotations.
Open Scope string_scope.

(** ** Python string operations used by the handlers *)

(** [s.startswith(pre)] *)
Definition startswith (pre s : string) : bool := String.prefix pre s.

(** [s[n:]] *)
Fixpoint drop (n : nat) (s : string) : string :=
  match n, s with
  | O, _ => s
  | S _, EmptyString => EmptyString
  | S n', String _ s' => drop n' s'
  end.

(** [s[:n]] *)
Fixpoint take (n : nat) (s : string) : string :=
  match n, s with
  | O, _ => EmptyString
  | S _, EmptyString => EmptyString
  | S n', String c s' => String c (take n' s')
  end.

(** [s.endswith(suf)] *)
Definition endswith (suf s : string) : bool :=
  (String.length suf <=? String.length s)%nat
  && String.eqb (drop (String.length s - String.length suf) s) suf.

(** [c in s] for a one-character [c] *)
Fixpoint contains (c : ascii) (s : string) : bool :=
  match s with
  | EmptyString => false
  | String a s' => Ascii.eqb a c || contains c s'
  end.

(** [s.lstrip(chars)], the set of characters given as a predicate *)
Fixpoint lstrip (p : ascii -> bool) (s : string) : string :=
  match s with
  | EmptyString => EmptyString
  | String a s' => if p a then lstrip p s' else s
  end.

(** [s.replace(b, '')] for every [b] of a set of one-character strings *)
Fixpoint remove_chars (p : ascii -> bool) (s : string) : string :=
  match s with
  | EmptyString => EmptyString
  | String a s' => if p a then remove_chars p s' else String a (remove_chars p s')
  end.

(** The part of [s] before the first character satisfying [p], and the rest
    starting at that character: [(s[:i], s[i:])] for [i] the least index
    [s.find(c)] over the characters [c] of the set, or [(s, '')] when no
    such character occurs. *)
Fixpoint break_at (p : ascii -> bool) (s : string) : string * string :=
  match s with
  | EmptyString => (EmptyString, EmptyString)
  | String a s' =>
      if p a then (EmptyString, s)
      else let (l, r) := break_at p s' in (String a l, r)
  end.

(** [s.find(c)], [None] for Python's [-1] *)
Fixpoint find (c : ascii) (s : string) : option nat :=
  match s with
  | EmptyString => None
  | String a s' =>
      if Ascii.eqb a c then Some O
      else match find c s' with Some i => Some (S i) | None => None end
  end.

(** [s.rfind(c)], [None] for Python's [-1] *)
Fixpoint rfind (c : ascii) (s : string) : option nat :=
  match s with
  | EmptyString => None
  | String a s' =>
      match rfind c s' with
      | Some i => Some (S i)
      | None => if Ascii.eqb a c then Some O else None
      end
  end.

(** [all(p(c) for c in s)] *)
Fixpoint forallb_str (p : ascii -> bool) (s : string) : bool :=
  match s with
  | EmptyString => true
  | String a s' => p a && forallb_str p s'
  end.

(** [s.lower()] on latin-1 text restricted to the ASCII letters, which is
    all a URL scheme can hold. *)
Definition lower_char (c : ascii) : ascii :=
  let n := nat_of_ascii c in
  if ((65 <=? n) && (n <=? 90))%nat then ascii_of_nat (n + 32) else c.

Fixpoint lower (s : string) : string :=
  match s with
  | EmptyString => EmptyString
  | String a s' => String (lower_char a) (lower s')
  end.

Definition is_char (c : ascii) : ascii -> bool := fun a => Ascii.eqb a c.

Definition in_chars (set : string) : ascii -> bool := fun a => contains a set.

(** ** urllib.parse.urlparse, the path component

    CPython 3.12, [Lib/urllib/parse.py]: [urlsplit] followed by the
    [;params] split of [urlparse]. *)

(** [_WHATWG_C0_CONTROL_OR_SPACE]: the characters U+0000 to U+0020 *)
Definition is_c0_control_or_space (c : ascii) : bool :=
  (nat_of_ascii c <=? 32)%nat.

(** [_UNSAFE_URL_BYTES_TO_REMOVE = ['\t', '\r', '\n']] *)
Definition is_unsafe_url_byte (c : ascii) : bool :=
  let n := nat_of_ascii c in
  ((n =? 9) || (n =? 13) || (n =? 10))%nat.

Definition is_ascii_alpha (c : ascii) : bool :=
  let n := nat_of_ascii c in
  (((65 <=? n) && (n <=? 90)) || ((97 <=? n) && (n <=? 122)))%nat.

Definition is_ascii_digit (c : ascii) : bool :=
  let n := nat_of_ascii c in
  ((48 <=? n) && (n <=? 57))%nat.

(** [scheme_chars]: letters, digits and [+-.] *)
Definition is_scheme_char (c : ascii) : bool :=
  is_ascii_alpha c || is_ascii_digit c || in_chars "+-." c.

(** [uses_params] *)
Definition uses_params : list string :=
  [EmptyString; "ftp"; "hdl"; "prospero"; "http"; "imap"; "https"; "shttp"; "rtsp";
   "rtspu"; "sip"; "sips"; "mms"; "sftp"; "tel"].

Definition mem_string (s : string) (l : list string) : bool :=
  existsb (String.eqb s) l.

(** The scheme step of [urlsplit]:
    [[
    i = url.find(':')
    if i > 0 and url[0].isascii() and url[0].isalpha():
        for c in url[:i]:
            if c not in scheme_chars: break
        else:
            scheme, url = url[:i].lower(), url[i+1:]
    ]] *)
Definition split_scheme (url : string) : string * string :=
  match find ":" url, url with
  | Some (S i'), String c0 _ =>
      if is_ascii_alpha c0 && forallb_str is_scheme_char (take (S i') url)
      then (lower (take (S i') url), drop (S (S i')) url)
      else (EmptyString, url)
  | _, _ => (EmptyString, url)
  end.

(** [_splitnetloc(url, 2)]: the network location runs from index 2 to the
    first of [/], [?], [#]. *)
Definition splitnetloc (url : string) : string * string :=
  break_at (in_chars "/?#") (drop 2 url).

(** [_splitparams(url)], first component:
    [[
    if '/' in url:
        i = url.find(';', url.rfind('/'))
        if i < 0: return url, ''
    else:
        i = url.find(';')
    return url[:i], url[i+1:]
    ]]
    [url[:i]] for [i = url.find(';', k)] is [url[:k]] followed by the part
    of [url[k:]] before its first [;]. *)
Definition splitparams (url : string) : string :=
  match rfind "/" url with
  | Some k => take k url ++ fst (break_at (is_char ";") (drop k url))
  | None => fst (break_at (is_char ";") url)
  end.

Section UrlParse.

(** [urlsplit] raises [ValueError] on a network location it rejects
    (unbalanced or invalid bracketed host, characters that normalise to a
    delimiter): the check is the library's, its verdict a parameter. *)
Variable netloc_ok : string -> bool.

(** [urlparse(url).path], [None] when [urlparse] raises [ValueError]. *)
Definition urlparse_path (url : string) : option string :=
  let url := lstrip is_c0_control_or_space url in
  let url := remove_chars is_unsafe_url_byte url in
  let (scheme, url) := split_scheme url in
  let (netloc, url) :=
    if String.eqb (take 2 url) "//" then splitnetloc url
    else (EmptyString, url) in
  if negb (String.eqb netloc EmptyString) && negb (netloc_ok netloc) then None
  else
    let url := fst (break_at (is_char "#") url) in
    let url := fst (break_at (is_char "?") url) in
    if mem_string scheme uses_params && contains ";" url
    then Some (splitparams url)
    else Some url.

End UrlParse.

(** ** json.dumps(obj, indent=2)

    The payloads are Python dict literals serialised with [json.dumps]
    ([ensure_ascii=True], two-space indentation).  A Python [str] put in
    a payload is a sequence of code points. *)

Definition pystr := list N.

Definition u (s : string) : pystr :=
  map N_of_ascii (list_ascii_of_string s).

#[local] Set Warnings "-register-all".

Inductive json : Type :=
  | JStr (s : pystr)
  | JInt (z : Z)
  | JFloat (repr : string)   (* a float literal, by its [repr] *)
  | JBool (b : bool)
  | JList (items : list json)
  | JDict (items : list (pystr * json)).

Definition dquote : ascii := ascii_of_nat 34.
Definition backslash : ascii := ascii_of_nat 92.
Definition nl : string := String (ascii_of_nat 10) EmptyString.

Definition hex_digit (n : N) : ascii :=
  if (n <? 10)%N then ascii_of_N (48 + n) else ascii_of_N (87 + n).

(** ['\\u{0:04x}'.format(n)] *)
Definition u_escape (n : N) : string :=
  String backslash (String "u"
    (String (hex_digit ((n / 4096) mod 16))
    (String (hex_digit ((n / 256) mod 16))
    (String (hex_digit ((n / 16) mod 16))
    (String (hex_digit (n mod 16)) EmptyString))))).

(** One character of [py_encode_basestring_ascii]: printable ASCII other
    than the quote and the backslash is kept, the rest is escaped. *)
Definition escape_char (n : N) : string :=
  if (n =? 92)%N then String backslash (String backslash EmptyString)
  else if (n =? 34)%N then String backslash (String dquote EmptyString)
  else if ((32 <=? n) && (n <=? 126))%N then String (ascii_of_N n) EmptyString
  else if (n =? 8)%N then String backslash "b"
  else if (n =? 12)%N then String backslash "f"
  else if (n =? 10)%N then String backslash "n"
  else if (n =? 13)%N then String backslash "r"
  else if (n =? 9)%N then String backslash "t"
  else if (n <? 65536)%N then u_escape n
  else
    let v := (n - 65536)%N in
    u_escape (N.lor 55296 (N.land (N.shiftr v 10) 1023))
    ++ u_escape (N.lor 56320 (N.land v 1023)).

Definition encode_basestring_ascii (s : pystr) : string :=
  String dquote (String.concat EmptyString (map escape_char s))
  ++ String dquote EmptyString.

Fixpoint spaces (n : nat) : string :=
  match n with
  | O => EmptyString
  | S n' => String " " (spaces n')
  end.

Definition newline_indent (level : nat) : string := nl ++ spaces (2 * level).

Definition string_of_Z (z : Z) : string := NilZero.string_of_int (Z.to_int z).

Definition string_of_nat (n : nat) : string :=
  NilZero.string_of_uint (Nat.to_uint n).

(** The encoder at nesting depth [level]. *)
Fixpoint iterencode (level : nat) (v : json) : string :=
  match v with
  | JStr s => encode_basestring_ascii s
  | JInt z => string_of_Z z
  | JFloat r => r
  | JBool true => "true"
  | JBool false => "false"
  | JList [] => "[]"
  | JList items =>
      "[" ++ newline_indent (S level)
      ++ String.concat ("," ++ newline_indent (S level))
           (map (iterencode (S level)) items)
      ++ newline_indent level ++ "]"
  | JDict [] => "{}"
  | JDict items =>
      "{" ++ newline_indent (S level)
      ++ String.concat ("," ++ newline_indent (S level))
           (map (fun kv : pystr * json =>
                   let (k, x) := kv in
                   encode_basestring_ascii k ++ ": " ++ iterencode (S level) x)
                items)
      ++ newline_indent level ++ "}"
  end.

(** [json.dumps(v, indent=2)] *)
Definition json_dumps (v : json) : string := iterencode 0 v.

(** ** Responses and the world around a request *)

Definition header := (string * string)%type.

(** What a handler sends for one request: the code it passes to
    [send_response], the headers it passes to [send_header], and what it
    writes to [wfile] after [end_headers].  What of this reaches the client
    depends on the version of the request line, see [written] below. *)
Record Response : Type := mkResponse {
  status : nat;
  headers : list header;
  body : string
}.

(** The ways [open(path, 'rb')] ends in [send_head]: with a file object;
    with an [OSError] (no such file, no permission), which [send_head]
    catches; with another exception ([ValueError] for a name with an
    embedded null byte, as a percent-decoded [%00] gives), which it does
    not. *)
Inductive OpenResult : Type := Opened | OpenOSError | OpenRaises.

(** What a handler asks of its surroundings while it answers one request. *)
Record World : Type := mkWorld {
  (** verdict of [urlsplit] on a network location *)
  netloc_ok : string -> bool;
  (** [os.path.exists(os.path.join(DEMO_DIR, rel))] *)
  path_exists : string -> bool;
  (** [SimpleHTTPRequestHandler.translate_path]: URL path to file name *)
  translate_path : string -> string;
  (** [os.path.isdir] on a translated path *)
  isdir : string -> bool;
  (** how [open(path, 'rb')] ends on a translated path *)
  open_file : string -> OpenResult;
  (** what [send_head] does for a directory (redirect, index page or
      listing), given [self.path] and the translated path, up to its call
      of [end_headers]; [None] when an exception escapes *)
  serve_directory : string -> string -> option Response;
  (** what [send_head] and [copyfile] do with an opened file (200 with the
      content, or 304), up to the call of [end_headers] *)
  serve_file : string -> option Response;
  (** [self.version_string()] and [self.date_time_string()] *)
  version_string : string;
  date_time_string : string;
  (** [error_message_format] filled in for a status code and a message *)
  error_page : nat -> string -> string
}.

(** The two request handler classes. *)
Inductive Handler : Type := PerfectSPAHandler | SimpleHandler.

(** [end_headers], as each class overrides it, for the current
    [self.path]: the headers it sends before [super().end_headers()]. *)
Definition end_headers (h : Handler) (path : string) : list header :=
  match h with
  | PerfectSPAHandler =>
      [("Access-Control-Allow-Origin", "*");
       ("Access-Control-Allow-Methods", "GET, POST, PUT, DELETE, OPTIONS");
       ("Access-Control-Allow-Headers",
        "Content-Type, Authorization, X-Requested-With, X-AI-Assistant");
       ("Access-Control-Expose-Headers", "X-Performance-Metrics, X-AI-Analysis");
       ("X-Content-Type-Options", "nosniff");
       ("X-Frame-Options", "DENY");
       ("X-XSS-Protection", "1; mode=block");
       ("Referrer-Policy", "strict-origin-when-cross-origin")]
      ++ (if endswith ".js" path || endswith ".css" path
          then [("Cache-Control", "public, max-age=31536000, immutable")]
          else if endswith ".html" path
          then [("Cache-Control", "no-cache, no-store, must-revalidate")]
          else [])
      ++ [("X-AI-Claude", "active");
          ("X-AI-Gemini", "available");
          ("X-AI-Collaboration", "enabled")]
  | SimpleHandler =>
      [("Access-Control-Allow-Origin", "*");
       ("Cache-Control", "no-cache")]
  end.

(** [BaseHTTPRequestHandler.send_response(code)]: the status line and the
    [Server] and [Date] headers. *)
Definition send_response (w : World) : list header :=
  [("Server", version_string w); ("Date", date_time_string w)].

(** A response assembled as the handlers do: [send_response(code)], the
    [send_header] calls, [end_headers()], then the body written to
    [wfile].  The line [log_message] prints for each response goes to
    standard output and is not part of the response.  Of these calls only
    the last writes anything when the request line had no version, see
    [written]. *)
Definition respond (w : World) (h : Handler) (path : string)
    (code : nat) (sent : list header) (content : string) : Response :=
  mkResponse code (send_response w ++ sent ++ end_headers h path) content.

(** [BaseHTTPRequestHandler.send_error(code, message)] for a code that
    carries a body and a method other than HEAD. *)
Definition send_error (w : World) (h : Handler) (path : string)
    (code : nat) (message : string) : Response :=
  let content := error_page w code message in
  respond w h path code
    [("Connection", "close");
     ("Content-Type", "text/html;charset=utf-8");
     ("Content-Length", string_of_nat (String.length content))]
    content.

(** A response the library prepared, completed by the class's
    [end_headers]. *)
Definition finish (h : Handler) (path : string) (r : Response) : Response :=
  mkResponse (status r) (headers r ++ end_headers h path) (body r).

(** [SimpleHTTPRequestHandler.do_GET], that is [send_head] and the copy of
    the file: a directory is handed to the directory branch; a translated
    path that ends in a slash, or a file whose [open] raises [OSError], is
    [404 File not found]; any other exception of [open] escapes ([None]),
    nothing having been sent. *)
Definition SimpleHTTPRequestHandler_do_GET (w : World) (h : Handler)
    (path : string) : option Response :=
  let file := translate_path w path in
  if isdir w file then option_map (finish h path) (serve_directory w path file)
  else if endswith "/" file then Some (send_error w h path 404 "File not found")
  else match open_file w file with
       | Opened => option_map (finish h path) (serve_file w file)
       | OpenOSError => Some (send_error w h path 404 "File not found")
       | OpenRaises => None
       end.

(** ** The enhanced handler, [PerfectSPAHandler] *)

(** The five fixed payloads. *)
Inductive Payload : Type := api | metrics | health | service_worker | manifest.

(** What [do_GET] decides for a request target: one of the fixed payloads
    ([handle_api_request], [handle_metrics_request], [handle_health_check],
    [serve_service_worker], [serve_manifest], each followed by [return]),
    an assignment to [self.path] before [super().do_GET()], or
    [super().do_GET()] on the path as received. *)
Inductive Decision : Type :=
  | ServeReservedPayload (kind : Payload)
  | RewriteTo (path : string)
  | ServeStaticOrFallback.

(** The control flow of [PerfectSPAHandler.do_GET] up to the call it ends
    in; [None] when [urlparse] raises. *)
Definition route (w : World) (path : string) : option Decision :=
  match urlparse_path (netloc_ok w) path with
  | None => None
  | Some parsed_path =>
      Some
        (if startswith "/api/" parsed_path then ServeReservedPayload api
         else if String.eqb parsed_path "/metrics" then ServeReservedPayload metrics
         else if String.eqb parsed_path "/health" then ServeReservedPayload health
         else if String.eqb parsed_path "/sw.js" then ServeReservedPayload service_worker
         else if String.eqb parsed_path "/manifest.json" then ServeReservedPayload manifest
         else if String.eqb path "/shift-system" || String.eqb path "/shift"
         then RewriteTo "/shift-system-spa.html"
         else if negb (String.eqb path "/")
                 && negb (path_exists w (lstrip (is_char "/") path))
         then
           if negb (startswith "/api/" path) && negb (contains "." path)
           then RewriteTo "/demo-perfect.html"
           else ServeStaticOrFallback
         else ServeStaticOrFallback)
  end.

(** The dict of [handle_api_request]. *)
Definition api_response : json :=
  JDict
    [(u "success", JBool true);
     (u "data",
      JDict
        [(u "message", JStr (u "Perfect SPA API endpoint"));
         (u "timestamp", JStr (u "2025-09-26T10:30:00Z"));
         (u "ai_enhancement",
          JDict
            [(u "claude_optimization", JBool true);
             (u "gemini_analysis", JBool false);
             (u "performance_score", JInt 95)])]);
     (u "meta",
      JDict
        [(u "version", JStr (u "2.0.0"));
         (u "ai_collaboration", JStr (u "active"))])].

(** The dict of [handle_metrics_request]. *)
Definition metrics_response : json :=
  JDict
    [(u "performance",
      JDict
        [(u "bundle_size", JStr (u "6.04 KB"));
         (u "load_time", JInt 245);
         (u "memory_usage", JFloat "12.5");
         (u "cache_hit_rate", JFloat "0.89")]);
     (u "security",
      JDict
        [(u "csp_violations", JInt 0);
         (u "xss_attempts", JInt 0);
         (u "csrf_tokens", JStr (u "valid"))]);
     (u "ai_collaboration",
      JDict
        [(u "claude_active", JBool true);
         (u "gemini_available", JBool false);
         (u "optimization_suggestions", JInt 3)])].

(** The dict of [handle_health_check]. *)
Definition health_status : json :=
  JDict
    [(u "status", JStr (u "healthy"));
     (u "version", JStr (u "2.0.0"));
     (u "timestamp", JStr (u "2025-09-26T10:30:00Z"));
     (u "services",
      JDict
        [(u "spa_framework", JStr (u "active"));
         (u "performance_monitoring", JStr (u "active"));
         (u "security_layer", JStr (u "active"))]);
     (u "ai_collaboration",
      JDict
        [(u "claude_code", JStr (u "active"));
         (u "gemini", JStr (u "standby"));
         (u "hybrid_mode", JStr (u "enabled"))])].

(** The script of [serve_service_worker], line by line: the literal opens
    and closes with a line break. *)
Definition sw_content : string :=
  String.concat nl
    [EmptyString; "// Perfect SPA Framework v2.0 Service Worker";
     "const CACHE_NAME = 'perfect-spa-v2.0';";
     "const urlsToCache = [";
     "    '/demo-perfect.html',";
     "    '/dist/spa-framework-perfect.iife.js',";
     "    'https://cdn.jsdelivr.net/npm/bootstrap@5.3.2/dist/css/bootstrap.min.css'";
     "];";
     EmptyString;
     "self.addEventListener('install', event => {";
     "    event.waitUntil(";
     "        caches.open(CACHE_NAME)";
     "            .then(cache => cache.addAll(urlsToCache))";
     "    );";
     "});";
     EmptyString;
     "self.addEventListener('fetch', event => {";
     "    event.respondWith(";
     "        caches.match(event.request)";
     "            .then(response => response || fetch(event.request))";
     "    );";
     "});";
     EmptyString;
     "self.addEventListener('message', event => {";
     "    if (event.data && event.data.type === 'AI_ANALYSIS') {";
     "        console.log('AI analysis received:', event.data.payload);";
     "    }";
     "});";
     EmptyString].

(** The dict of [serve_manifest]; the description is
    [AI] followed by U+5354 U+529B U+306B U+3088 U+308B U+6B21 U+4E16
    U+4EE3 and [SPA]. *)
Definition manifest_response : json :=
  JDict
    [(u "name", JStr (u "Perfect SPA Framework v2.0"));
     (u "short_name", JStr (u "Perfect SPA"));
     (u "description",
      JStr (u "AI" ++ [21332; 21147; 12395; 12424; 12427; 27425; 19990; 20195]%N
            ++ u "SPA")%list);
     (u "start_url", JStr (u "/demo-perfect.html"));
     (u "display", JStr (u "standalone"));
     (u "background_color", JStr (u "#007bff"));
     (u "theme_color", JStr (u "#007bff"));
     (u "icons",
      JList
        [JDict
           [(u "src", JStr (u "/icons/icon-192.png"));
            (u "sizes", JStr (u "192x192"));
            (u "type", JStr (u "image/png"))]])].

Definition handle_api_request (w : World) (path : string) : Response :=
  respond w PerfectSPAHandler path 200
    [("Content-Type", "application/json");
     ("X-AI-Analysis", "claude-code-processed")]
    (json_dumps api_response).

Definition handle_metrics_request (w : World) (path : string) : Response :=
  respond w PerfectSPAHandler path 200
    [("Content-Type", "application/json")]
    (json_dumps metrics_response).

Definition handle_health_check (w : World) (path : string) : Response :=
  respond w PerfectSPAHandler path 200
    [("Content-Type", "application/json")]
    (json_dumps health_status).

Definition serve_service_worker (w : World) (path : string) : Response :=
  respond w PerfectSPAHandler path 200
    [("Content-Type", "application/javascript")]
    sw_content.

Definition serve_manifest (w : World) (path : string) : Response :=
  respond w PerfectSPAHandler path 200
    [("Content-Type", "application/json")]
    (json_dumps manifest_response).

Definition serve_payload (w : World) (path : string) (kind : Payload) : Response :=
  match kind with
  | api => handle_api_request w path
  | metrics => handle_metrics_request w path
  | health => handle_health_check w path
  | service_worker => serve_service_worker w path
  | manifest => serve_manifest w path
  end.

(** [PerfectSPAHandler.do_GET]; [None] when an exception escapes. *)
Definition do_GET (w : World) (path : string) : option Response :=
  match route w path with
  | None => None
  | Some (ServeReservedPayload kind) => Some (serve_payload w path kind)
  | Some (RewriteTo path') =>
      SimpleHTTPRequestHandler_do_GET w PerfectSPAHandler path'
  | Some ServeStaticOrFallback =>
      SimpleHTTPRequestHandler_do_GET w PerfectSPAHandler path
  end.

(** [PerfectSPAHandler.do_OPTIONS] *)
Definition do_OPTIONS (w : World) (path : string) : Response :=
  respond w PerfectSPAHandler path 200 [] EmptyString.

(** ** The minimal handler, [SimpleHandler] *)

Definition simple_do_GET (w : World) (path : string) : option Response :=
  let path := if String.eqb path "/" || String.eqb path EmptyString then "/demo-perfect.html"
              else path in
  SimpleHTTPRequestHandler_do_GET w SimpleHandler path.

(** ** Method dispatch, [BaseHTTPRequestHandler.handle_one_request]

    After the request line is parsed the library looks up the method
    ['do_' + self.command] on the handler and answers 501 when the class
    has none. *)

Inductive Command : Type := GET | HEAD | OPTIONS | POST | PUT | DELETE.

Definition command_name (c : Command) : string :=
  match c with
  | GET => "GET"
  | HEAD => "HEAD"
  | OPTIONS => "OPTIONS"
  | POST => "POST"
  | PUT => "PUT"
  | DELETE => "DELETE"
  end.

(** The [do_*] methods each class has, its own or inherited from
    [SimpleHTTPRequestHandler] ([do_GET] and [do_HEAD]). *)
Definition methods (h : Handler) : list string :=
  match h with
  | PerfectSPAHandler => ["do_OPTIONS"; "do_GET"; "do_HEAD"]
  | SimpleHandler => ["do_GET"; "do_HEAD"]
  end.

Definition hasattr (h : Handler) (mname : string) : bool :=
  mem_string mname (methods h).

(** [SimpleHTTPRequestHandler.do_HEAD]: the headers of [do_GET], nothing
    written after them. *)
Definition SimpleHTTPRequestHandler_do_HEAD (w : World) (h : Handler)
    (path : string) : option Response :=
  option_map (fun r => mkResponse (status r) (headers r) EmptyString)
    (SimpleHTTPRequestHandler_do_GET w h path).

(** [getattr(self, mname)()]: the method the name resolves to on each
    class; [None] where [getattr] would raise [AttributeError]. *)
Definition call_method (w : World) (h : Handler) (c : Command)
    (path : string) : option Response :=
  match c, h with
  | GET, PerfectSPAHandler => do_GET w path
  | GET, SimpleHandler => simple_do_GET w path
  | HEAD, _ => SimpleHTTPRequestHandler_do_HEAD w h path
  | OPTIONS, PerfectSPAHandler => Some (do_OPTIONS w path)
  | _, _ => None
  end.

(** [[
    mname = 'do_' + self.command
    if not hasattr(self, mname):
        self.send_error(HTTPStatus.NOT_IMPLEMENTED,
                        "Unsupported method (%r)" % self.command)
        return
    method = getattr(self, mname)
    method()
    ]] *)
Definition handle_one_request (w : World) (h : Handler) (c : Command)
    (path : string) : option Response :=
  let mname := "do_" ++ command_name c in
  if negb (hasattr h mname) then
    Some (send_error w h path 501
            ("Unsupported method ('" ++ command_name c ++ "')"))
  else call_method w h c path.

(** ** What reaches the client

    [parse_request] accepts a request line of two words, [GET path], as an
    HTTP/0.9 request, and one of three words whose last is [HTTP/1.x]; it
    then replaces a run of slashes at the start of the path by one slash.
    For an HTTP/0.9 request [send_response_only], [send_header] and
    [end_headers] write nothing, so the client gets the body alone. *)

Inductive RequestLine : Type :=
  | Simple (path : string)               (* [GET path] *)
  | Full (c : Command) (path : string).  (* [c path HTTP/1.x] *)

(** [self.request_version == 'HTTP/0.9'] *)
Definition http09 (rl : RequestLine) : bool :=
  match rl with
  | Simple _ => true
  | Full _ _ => false
  end.

(** [self.command] *)
Definition request_command (rl : RequestLine) : Command :=
  match rl with
  | Simple _ => GET
  | Full c _ => c
  end.

(** [[
    if self.path.startswith('//'):
        self.path = '/' + self.path.lstrip('/')
    ]] *)
Definition collapse_slashes (path : string) : string :=
  if startswith "//" path then String "/" (lstrip (is_char "/") path) else path.

(** [self.path] as the [do_*] method finds it. *)
Definition request_path (rl : RequestLine) : string :=
  collapse_slashes match rl with
                   | Simple path => path
                   | Full _ path => path
                   end.

(** The bytes sent, in three parts: the status line if any, the header
    lines, the rest. *)
Record Wire : Type := mkWire {
  status_line : option nat;
  wire_headers : list header;
  wire_body : string
}.

Definition written (version09 : bool) (r : Response) : Wire :=
  if version09 then mkWire None [] (body r)
  else mkWire (Some (status r)) (headers r) (body r).

(** One accepted request line, from [parse_request] to the last byte;
    [None] when an exception escapes the handler, nothing having been
    written. *)
Definition handle_request (w : World) (h : Handler) (rl : RequestLine)
    : option Wire :=
  option_map (written (http09 rl))
    (handle_one_request w h (request_command rl) (request_path rl)).


(** ** Startup, [main]

    [main] runs its checks, opens the listening socket and serves, inside
    [try ... except OSError ... except Exception]; [sys.exit] raises
    [SystemExit], which neither clause catches.  A run is the list of the
    things it did and the way it ended. *)

Definition PORT : Z := 9000.

(** What [main] prints, by occasion. *)
Inductive Message : Type :=
  | DirectoryNotFound
  | DemoFileNotFound
  | DistWarning
  | Banner
  | StoppedByUser
  | PortInUse
  | ErrorStartingServer
  | UnexpectedError.

Inductive Event : Type :=
  | Printed (m : Message)
  | Listen (port : Z)        (* [TCPServer(...)] bound and listening *)
  | ServeForever             (* [httpd.serve_forever()] entered: requests are served *)
  | ServerClose.             (* the [with] block left *)

Inductive Exn : Type :=
  | SystemExit (code : Z)
  | OSError (errno : Z)
  | KeyboardInterrupt
  | OtherException.

(** The end of a computation: a value, an exception on its way up, or the
    serving loop that never returns. *)
Inductive Ending (A : Type) : Type :=
  | Value (a : A)
  | Raised (e : Exn)
  | Forever.

Arguments Value {A} a.
Arguments Raised {A} e.
Arguments Forever {A}.

Definition Run (A : Type) : Type := (list Event * Ending A)%type.

Definition ret {A : Type} (a : A) : Run A := ([], Value a).

Definition bind {A B : Type} (m : Run A) (f : A -> Run B) : Run B :=
  match m with
  | (t, Value a) => let (t', e) := f a in ((t ++ t')%list, e)
  | (t, Raised e) => (t, Raised e)
  | (t, Forever) => (t, Forever)
  end.

Notation "m ;;; k" := (bind m (fun _ => k))
  (at level 61, right associativity).

Definition raise {A : Type} (e : Exn) : Run A := ([], Raised e).

Definition emit (ev : Event) : Run unit := ([ev], Value tt).

Definition print (m : Message) : Run unit := emit (Printed m).

(** [sys.exit(code)] *)
Definition sys_exit {A : Type} (code : Z) : Run A := raise (SystemExit code).

(** [try: m  except ...: handler], the handler choosing the exceptions it
    catches. *)
Definition try_except {A : Type} (m : Run A) (handler : Exn -> option (Run A))
    : Run A :=
  match m with
  | (t, Raised e) =>
      match handler e with
      | Some k => let (t', r) := k in ((t ++ t')%list, r)
      | None => (t, Raised e)
      end
  | _ => m
  end.

(** Leaving a [with] block runs its exit action, however the block ended,
    unless it never ends. *)
Definition finally {A : Type} (m : Run A) (ev : Event) : Run A :=
  match m with
  | (t, Forever) => (t, Forever)
  | (t, r) => ((t ++ [ev])%list, r)
  end.

(** What the operating system and the user do to one run of [main]. *)
Inductive BindResult : Type :=
  | Bound
  | BindOSError (errno : Z)
  | BindException.

Inductive ServeResult : Type :=
  | Interrupted                (* Ctrl+C *)
  | ServeOSError (errno : Z)
  | ServeException
  | NeverReturns.

Record Startup : Type := mkStartup {
  demo_dir_exists : bool;      (* [DEMO_DIR.exists()] *)
  tcp_bind : BindResult;
  serving : ServeResult
}.

(** [socketserver.TCPServer(('', PORT), PerfectSPAHandler)] *)
Definition TCPServer (s : Startup) (port : Z) : Run unit :=
  match tcp_bind s with
  | Bound => emit (Listen port)
  | BindOSError errno => raise (OSError errno)
  | BindException => raise OtherException
  end.

(** [httpd.serve_forever()] *)
Definition serve_forever (s : Startup) : Run unit :=
  emit ServeForever ;;;
  match serving s with
  | Interrupted => raise KeyboardInterrupt
  | ServeOSError errno => raise (OSError errno)
  | ServeException => raise OtherException
  | NeverReturns => ([], Forever)
  end.

(** [main()], on the file system [w] the handlers see. *)
Definition main (w : World) (s : Startup) : Run unit :=
  try_except
    ((if negb (demo_dir_exists s)
      then print DirectoryNotFound ;;; sys_exit 1
      else ret tt) ;;;
     (if negb (path_exists w "demo-perfect.html")
      then print DemoFileNotFound ;;; sys_exit 1
      else ret tt) ;;;
     (if negb (path_exists w "dist")
      then print DistWarning
      else ret tt) ;;;
     TCPServer s PORT ;;;
     finally
       (print Banner ;;;
        try_except (serve_forever s)
          (fun e => match e with
                    | KeyboardInterrupt => Some (print StoppedByUser)
                    | _ => None
                    end))
       ServerClose)
    (fun e => match e with
              | OSError errno =>
                  Some ((if (errno =? 48)%Z then print PortInUse
                         else print ErrorStartingServer) ;;;
                        sys_exit 1)
              | OtherException => Some (print UnexpectedError ;;; sys_exit 1)
              | SystemExit _ | KeyboardInterrupt => None
              end).

(** The exit status of the process running [main()] under
    [if __name__ == "__main__"]: 0 when [main] returns, the code of an
    escaping [SystemExit], the interpreter's status for another escaping
    exception; [None] while the server runs. *)
Definition exit_status (r : Run unit) : option Z :=
  match snd r with
  | Value _ => Some 0%Z
  | Raised (SystemExit code) => Some code
  | Raised KeyboardInterrupt => Some 130%Z
  | Raised _ => Some 1%Z
  | Forever => None
  end.

(** Whether the run reached the serving loop. *)
Definition served (r : Run unit) : bool :=
  existsb (fun ev => match ev with ServeForever => true | _ => false end) (fst r).

(** Whether the run opened the listening socket. *)
Definition listened (r : Run unit) : bool :=
  existsb (fun ev => match ev with Listen _ => true | _ => false end) (fst r).

(** ** Notions the statements use *)

(** The parsed paths [do_GET] answers with a fixed payload: the tests of
    its first five [if]s. *)
Definition reserved (parsed_path : string) : bool :=
  startswith "/api/" parsed_path
  || String.eqb parsed_path "/metrics"
  || String.eqb parsed_path "/health"
  || String.eqb parsed_path "/sw.js"
  || String.eqb parsed_path "/manifest.json".

(** The existence test of [do_GET]:
    [os.path.exists(os.path.join(DEMO_DIR, path.lstrip('/')))]. *)
Definition resolves (w : World) (path : string) : bool :=
  path_exists w (lstrip (is_char "/") path).

(** A character that [urlparse] leaves in the path: not removed, not a
    delimiter of the fragment, the query or the parameters. *)
Definition plain_char (c : ascii) : bool :=
  negb (is_unsafe_url_byte c) && negb (is_char "#" c)
  && negb (is_char "?" c) && negb (is_char ";" c).


(** A JSON string token: the text between double quotes. *)
Definition quoted (s : string) : string :=
  String dquote s ++ String dquote EmptyString.

(** ** Concrete worlds and runs *)

(** The static layer's answer for a page it opened: 200 with the content. *)
Definition page_response (content : string) : Response :=
  mkResponse 200
    [("Server", "SimpleHTTP/0.6 Python/3.12");
     ("Date", "Thu, 01 Jan 1970 00:00:00 GMT");
     ("Content-type", "text/html");
     ("Content-Length", string_of_nat (String.length content));
     ("Last-Modified", "Thu, 01 Jan 1970 00:00:00 GMT")]
    content.

(** An empty serving root: nothing exists, nothing opens. *)
Definition empty_root : World :=
  mkWorld (fun _ => true) (fun _ => false) (fun p => p) (fun _ => false)
          (fun _ => OpenOSError) (fun _ _ => None) (fun _ => None)
          "SimpleHTTP/0.6 Python/3.12" "Thu, 01 Jan 1970 00:00:00 GMT"
          (fun _ m => m).

(** A serving root that holds [demo-perfect.html] and nothing else. *)
Definition entry_only : World :=
  mkWorld (fun _ => true) (String.eqb "demo-perfect.html")
          (lstrip (is_char "/")) (fun _ => false)
          (fun f => if String.eqb f "demo-perfect.html" then Opened
                    else OpenOSError)
          (fun _ _ => None)
          (fun _ => Some (page_response "<!DOCTYPE html>"))
          "SimpleHTTP/0.6 Python/3.12" "Thu, 01 Jan 1970 00:00:00 GMT"
          (fun _ m => m).

(** The directory is there, the port is free, nobody interrupts. *)
Definition normal_start : Startup := mkStartup true Bound NeverReturns.

(** The port is taken (EADDRINUSE on Linux). *)
Definition port_taken : Startup := mkStartup true (BindOSError 98) NeverReturns.

(** The serving root is gone. *)
Definition no_directory : Startup := mkStartup false Bound NeverReturns.

(** ** The minimal server's script

    The block under [if __name__ == "__main__"] of [simple-server.py]:
    no check before the socket is opened, and both [except] clauses only
    print.  Its three lines are the start-up line ([Banner]), the one after
    Ctrl+C ([StoppedByUser]) and the one reporting an exception
    ([UnexpectedError]). *)
Definition simple_main (s : Startup) : Run unit :=
  try_except
    (TCPServer s PORT ;;;
     finally (print Banner ;;; serve_forever s) ServerClose)
    (fun e => match e with
              | KeyboardInterrupt => Some (print StoppedByUser)
              | OSError _ | OtherException => Some (print UnexpectedError)
              | SystemExit _ => None
              end).

(** ** Further notions the statements use *)

(** The headers [end_headers] of each class sends whatever [self.path]
    is: all of them but the [Cache-Control] line of the enhanced handler. *)
Definition fixed_headers (h : Handler) : list header :=
  match h with
  | PerfectSPAHandler =>
      [("Access-Control-Allow-Origin", "*");
       ("Access-Control-Allow-Methods", "GET, POST, PUT, DELETE, OPTIONS");
       ("Access-Control-Allow-Headers",
        "Content-Type, Authorization, X-Requested-With, X-AI-Assistant");
       ("Access-Control-Expose-Headers", "X-Performance-Metrics, X-AI-Analysis");
       ("X-Content-Type-Options", "nosniff");
       ("X-Frame-Options", "DENY");
       ("X-XSS-Protection", "1; mode=block");
       ("Referrer-Policy", "strict-origin-when-cross-origin");
       ("X-AI-Claude", "active");
       ("X-AI-Gemini", "available");
       ("X-AI-Collaboration", "enabled")]
  | SimpleHandler =>
      [("Access-Control-Allow-Origin", "*");
       ("Cache-Control", "no-cache")]
  end.

Definition no_store : header :=
  ("Cache-Control", "no-cache, no-store, must-revalidate").

(** The [Content-Type] each payload is sent with. *)
Definition content_type (kind : Payload) : string :=
  match kind with
  | service_worker => "application/javascript"
  | _ => "application/json"
  end.

(** The names of the headers of a response. *)
Definition header_names (r : Response) : list string := map fst (headers r).

Definition is_dist_warning (ev : Event) : bool :=
  match ev with
  | Printed DistWarning => true
  | _ => false
  end.

(** A run without its warning about the [dist] directory. *)
Definition without_dist_warning (t : list Event) : list Event :=
  filter (fun ev => negb (is_dist_warning ev)) t.

(** A root that rejects every network location and holds nothing. *)
Definition strict_root : World :=
  mkWorld (fun _ => false) (fun _ => false) (fun p => p) (fun _ => false)
          (fun _ => OpenOSError) (fun _ _ => None) (fun _ => None)
          "SimpleHTTP/0.6 Python/3.12" "Thu, 01 Jan 1970 00:00:00 GMT"
          (fun _ m => m).

(** A root that holds [demo-perfect.html] and a [dist] directory. *)
Definition built_root : World :=
  mkWorld (fun _ => true)
          (fun rel => String.eqb rel "demo-perfect.html" || String.eqb rel "dist")
          (lstrip (is_char "/")) (String.eqb "dist")
          (fun f => if String.eqb f "demo-perfect.html" then Opened
                    else OpenOSError)
          (fun _ _ => None)
          (fun _ => Some (page_response "<!DOCTYPE html>"))
          "SimpleHTTP/0.6 Python/3.12" "Thu, 01 Jan 1970 00:00:00 GMT"
          (fun _ m => m).



(** The names of the headers written. *)
Definition wire_header_names (wr : Wire) : list string :=
  map fst (wire_headers wr).

(** Ctrl+C on a running server. *)
Definition interrupted_start : Startup := mkStartup true Bound Interrupted.

(** * Properties *)

(** ** The string operations *)

Section Strings.

Variable p : ascii -> bool.

Lemma remove_chars_app (a b : string) :
  remove_chars p (a ++ b) = remove_chars p a ++ remove_chars p b.
Proof.
  induction a as [|c a IH]; simpl; [reflexivity|].
  destruct (p c); simpl; now rewrite IH.
Qed.

Lemma remove_chars_id (s : string) :
  forallb_str (fun c => negb (p c)) s = true -> remove_chars p s = s.
Proof.
  induction s as [|c s IH]; simpl; [reflexivity|].
  intros H. apply andb_true_iff in H as [Hc Hs].
  apply negb_true_iff in Hc. now rewrite Hc, (IH Hs).
Qed.

(** A prefix free of the characters looked for is kept whole. *)
Lemma break_at_app (a b : string) :
  forallb_str (fun c => negb (p c)) a = true ->
  fst (break_at p (a ++ b)) = a ++ fst (break_at p b).
Proof.
  induction a as [|c a IH]; simpl; intros H; [reflexivity|].
  apply andb_true_iff in H as [Hc Ha].
  apply negb_true_iff in Hc. rewrite Hc.
  specialize (IH Ha). destruct (break_at p (a ++ b)); simpl in *.
  now rewrite IH.
Qed.

End Strings.

Lemma forallb_str_impl (P Q : ascii -> bool) (s : string) :
  (forall c, P c = true -> Q c = true) ->
  forallb_str P s = true -> forallb_str Q s = true.
Proof.
  intros HPQ. induction s as [|c s IH]; simpl; [reflexivity|].
  intros H. apply andb_true_iff in H as [Hc Hs].
  now rewrite (HPQ _ Hc), (IH Hs).
Qed.

Lemma contains_none (c : ascii) (s : string) :
  forallb_str (fun a => negb (is_char c a)) s = true -> contains c s = false.
Proof.
  induction s as [|a s IH]; simpl; [reflexivity|].
  intros H. apply andb_true_iff in H as [Ha Hs].
  apply negb_true_iff in Ha. unfold is_char in Ha.
  now rewrite Ha, (IH Hs).
Qed.

Lemma contains_app (c : ascii) (a b : string) :
  contains c (a ++ b) = contains c a || contains c b.
Proof.
  induction a as [|d a IH]; simpl; [reflexivity|].
  now rewrite IH, orb_assoc.
Qed.

Lemma append_empty (s : string) : s ++ EmptyString = s.
Proof. induction s as [|c s IH]; simpl; [reflexivity | now rewrite IH]. Qed.

Lemma prefix_app (a s : string) :
  String.prefix a s = true -> exists r, s = a ++ r.
Proof.
  revert s. induction a as [|c a IH]; intros s H.
  - now exists s.
  - destruct s as [|d s]; simpl in H; [discriminate|].
    destruct (ascii_dec c d) as [->|]; [|discriminate].
    destruct (IH _ H) as [r ->]. now exists r.
Qed.

Lemma prefix_append (a r : string) : String.prefix a (a ++ r) = true.
Proof.
  induction a as [|c a IH]; simpl.
  - now destruct r.
  - destruct (ascii_dec c c); [exact IH|contradiction].
Qed.

(** ** urlparse on request targets *)

Lemma plain_char_elim (c : ascii) :
  plain_char c = true ->
  is_unsafe_url_byte c = false /\ is_char "#" c = false
  /\ is_char "?" c = false /\ is_char ";" c = false.
Proof.
  unfold plain_char. intros H.
  repeat (apply andb_true_iff in H as [H ?]).
  repeat split; now apply negb_true_iff.
Qed.

Lemma plain_weaken (f : ascii -> bool) (s : string) :
  (forall c, plain_char c = true -> f c = false) ->
  forallb_str plain_char s = true ->
  forallb_str (fun c => negb (f c)) s = true.
Proof.
  intros Hf. apply forallb_str_impl. intros c Hc. now rewrite (Hf c Hc).
Qed.

Ltac plain_side H :=
  apply plain_weaken; [intros; now apply plain_char_elim | exact H].

(** A target that opens with a slash has no scheme. *)
Lemma split_scheme_slash (r : string) :
  split_scheme (String "/" r) = (EmptyString, String "/" r).
Proof.
  unfold split_scheme.
  destruct (find ":" (String "/" r)) as [[|i]|]; reflexivity.
Qed.

(** [urlparse] on a target that opens with exactly one slash: no scheme, no
    network location, no [ValueError]; the path is what precedes the
    fragment, the query and the parameters. *)
Lemma urlparse_path_rooted (ok : string -> bool) (c : ascii) (r : string) :
  is_unsafe_url_byte c = false ->
  Ascii.eqb c "/" = false ->
  urlparse_path ok (String "/" (String c r)) =
    let url := String "/" (String c (remove_chars is_unsafe_url_byte r)) in
    let url := fst (break_at (is_char "?") (fst (break_at (is_char "#") url))) in
    if contains ";" url then Some (splitparams url) else Some url.
Proof.
  intros Hu Hs. unfold urlparse_path.
  change (lstrip is_c0_control_or_space (String "/" (String c r)))
    with (String "/" (String c r)).
  change (remove_chars is_unsafe_url_byte (String "/" (String c r)))
    with (String "/" (if is_unsafe_url_byte c
                      then remove_chars is_unsafe_url_byte r
                      else String c (remove_chars is_unsafe_url_byte r))).
  rewrite Hu, split_scheme_slash.
  cbn [take String.eqb]. rewrite Hs. cbn [andb negb String.eqb].
  reflexivity.
Qed.

Lemma rfind_api (x : string) :
  exists k, rfind "/" ("/api/" ++ x) = Some (4 + k).
Proof.
  simpl. destruct (rfind "/" x) as [i|].
  - now exists (S i).
  - now exists 0.
Qed.

(** Cutting the parameters off starts at the last slash, so the first five
    characters survive. *)
Lemma splitparams_api (x : string) :
  startswith "/api/" (splitparams ("/api/" ++ x)) = true.
Proof.
  unfold splitparams. destruct (rfind_api x) as [k ->].
  destruct k as [|k]; cbn -[break_at]; unfold startswith.
  - cbn. destruct (break_at (is_char ";") x) as [l r]. cbn.
    now destruct l.
  - apply (prefix_append "/api/").
Qed.

(** The parsed path of a target under [/api/] is under [/api/]. *)
Lemma urlparse_path_api (ok : string -> bool) (r : string) :
  exists q, urlparse_path ok ("/api/" ++ r) = Some q
            /\ startswith "/api/" q = true.
Proof.
  change ("/api/" ++ r) with (String "/" (String "a" ("pi/" ++ r))).
  rewrite urlparse_path_rooted by reflexivity.
  rewrite remove_chars_app.
  change (String "/" (String "a" (remove_chars is_unsafe_url_byte "pi/"
                                  ++ remove_chars is_unsafe_url_byte r)))
    with ("/api/" ++ remove_chars is_unsafe_url_byte r).
  cbv zeta.
  rewrite break_at_app by reflexivity.
  rewrite break_at_app by reflexivity.
  match goal with |- context [contains ";" ?x] => destruct (contains ";" x) end.
  - eexists; split; [reflexivity|]. apply splitparams_api.
  - eexists; split; [reflexivity|]. apply (prefix_append "/api/").
Qed.

(** The query string is not part of the parsed path. *)
Lemma urlparse_path_query (ok : string -> bool) (c : ascii) (b q : string) :
  Ascii.eqb c "/" = false ->
  forallb_str plain_char (String c b) = true ->
  urlparse_path ok (String "/" (String c b) ++ String "?" q)
  = Some (String "/" (String c b)).
Proof.
  intros Hs Hp.
  assert (Hall : forallb_str plain_char (String "/" (String c b)) = true)
    by (simpl in *; exact Hp).
  simpl in Hp. apply andb_true_iff in Hp as [Hc Hb].
  destruct (plain_char_elim _ Hc) as (Hu & _).
  change (String "/" (String c b) ++ String "?" q)
    with (String "/" (String c (b ++ String "?" q))).
  rewrite urlparse_path_rooted by assumption.
  rewrite remove_chars_app.
  rewrite (remove_chars_id is_unsafe_url_byte b) by plain_side Hb.
  change (String "/" (String c (b ++ remove_chars is_unsafe_url_byte (String "?" q))))
    with (String "/" (String c b) ++ String "?" (remove_chars is_unsafe_url_byte q)).
  cbv zeta.
  rewrite break_at_app by plain_side Hall.
  change (break_at (is_char "#") (String "?" (remove_chars is_unsafe_url_byte q)))
    with (let (l, r) := break_at (is_char "#") (remove_chars is_unsafe_url_byte q)
          in (String "?" l, r)).
  destruct (break_at (is_char "#") (remove_chars is_unsafe_url_byte q)) as [l r].
  cbn [fst].
  rewrite break_at_app by plain_side Hall.
  cbn [break_at is_char Ascii.eqb Bool.eqb fst]. rewrite append_empty.
  rewrite (contains_none ";") by plain_side Hall.
  reflexivity.
Qed.

(** ** Routing *)

(** Past the five reserved tests, the decision is a function of the raw
    target and of the file system. *)
Lemma route_not_reserved (w : World) (p q : string) :
  urlparse_path (netloc_ok w) p = Some q ->
  reserved q = false ->
  route w p =
    Some (if String.eqb p "/shift-system" || String.eqb p "/shift"
          then RewriteTo "/shift-system-spa.html"
          else if negb (String.eqb p "/") && negb (resolves w p)
          then if negb (startswith "/api/" p) && negb (contains "." p)
               then RewriteTo "/demo-perfect.html"
               else ServeStaticOrFallback
          else ServeStaticOrFallback).
Proof.
  intros Hq Hr. unfold route. rewrite Hq.
  unfold reserved in Hr.
  repeat (apply orb_false_iff in Hr as [Hr ?]).
  repeat match goal with H : _ = false |- _ => rewrite H; clear H end.
  reflexivity.
Qed.

Lemma route_api (w : World) (p : string) :
  startswith "/api/" p = true -> route w p = Some (ServeReservedPayload api).
Proof.
  intros H. apply prefix_app in H as [r ->].
  unfold route. destruct (urlparse_path_api (netloc_ok w) r) as (q & -> & Hq).
  now rewrite Hq.
Qed.

(** The fallback is taken only when the raw target names nothing under the
    root and holds no dot. *)
Lemma route_fallback_inv (w : World) (p : string) :
  route w p = Some (RewriteTo "/demo-perfect.html") ->
  resolves w p = false /\ contains "." p = false.
Proof.
  unfold route, resolves.
  destruct (urlparse_path (netloc_ok w) p) as [q|]; [|discriminate].
  repeat match goal with
         | |- context [if ?b then _ else _] => destruct b eqn:?
         end; try discriminate.
  intros _.
  repeat match goal with
         | H : _ && _ = true |- _ => apply andb_true_iff in H as [? ?]
         | H : negb _ = true |- _ => apply negb_true_iff in H
         end.
  now split.
Qed.

Lemma route_shift_query (w : World) (q : string) :
  route w ("/shift?" ++ q) =
    Some (if negb (path_exists w ("shift?" ++ q)) && negb (contains "." q)
          then RewriteTo "/demo-perfect.html"
          else ServeStaticOrFallback).
Proof.
  rewrite (route_not_reserved w ("/shift?" ++ q) "/shift").
  - unfold resolves. cbn. destruct (path_exists w _); reflexivity.
  - apply (urlparse_path_query (netloc_ok w) "s" "hift" q); reflexivity.
  - reflexivity.
Qed.

Lemma route_shift_system_query (w : World) (q : string) :
  route w ("/shift-system?" ++ q) =
    Some (if negb (path_exists w ("shift-system?" ++ q)) && negb (contains "." q)
          then RewriteTo "/demo-perfect.html"
          else ServeStaticOrFallback).
Proof.
  rewrite (route_not_reserved w ("/shift-system?" ++ q) "/shift-system").
  - unfold resolves. cbn. destruct (path_exists w _); reflexivity.
  - apply (urlparse_path_query (netloc_ok w) "s" "hift-system" q); reflexivity.
  - reflexivity.
Qed.

(** ** Headers *)



(** ** Startup *)

(** The socket is opened only after the entry file was found. *)
Lemma listened_entry_exists (w : World) (s : Startup) :
  listened (main w s) = true -> path_exists w "demo-perfect.html" = true.
Proof.
  unfold main. destruct (demo_dir_exists s); [|discriminate].
  destruct (path_exists w "demo-perfect.html"); [reflexivity|discriminate].
Qed.

(** ** The static layer *)

(** Nothing to serve and [open] fails with [OSError]: a 404. *)
Lemma static_get_missing (w : World) (h : Handler) (path : string) :
  isdir w (translate_path w path) = false ->
  open_file w (translate_path w path) = OpenOSError ->
  SimpleHTTPRequestHandler_do_GET w h path
  = Some (send_error w h path 404 "File not found").
Proof.
  intros Hd Ho. unfold SimpleHTTPRequestHandler_do_GET. rewrite Hd, Ho.
  now destruct (endswith "/" (translate_path w path)).
Qed.

(** [open] raises something else: the exception escapes. *)
Lemma static_get_raises (w : World) (h : Handler) (path : string) :
  isdir w (translate_path w path) = false ->
  endswith "/" (translate_path w path) = false ->
  open_file w (translate_path w path) = OpenRaises ->
  SimpleHTTPRequestHandler_do_GET w h path = None.
Proof.
  intros Hd He Ho. unfold SimpleHTTPRequestHandler_do_GET.
  now rewrite Hd, He, Ho.
Qed.

(** A GET request line reaches [do_GET] of the enhanced handler. *)
Lemma handle_request_get (w : World) (rl : RequestLine) :
  request_command rl = GET ->
  handle_request w PerfectSPAHandler rl
  = option_map (written (http09 rl)) (do_GET w (request_path rl)).
Proof. intros Hc. unfold handle_request. now rewrite Hc. Qed.


(** * The claims *)

(** C1 (as amended).  [main] checks one file before it listens, the SPA
    entry [demo-perfect.html]: when that file is missing the process exits
    with status 1 and neither opens the socket nor serves; and once the
    socket is open, on the file system [main] saw, the target of the SPA
    fallback rewrite exists under the serving root.  Nothing is said of the
    target of the [/shift] rewrite. *)
Theorem startup_guards_spa_entry (w : World) (s : Startup) :
  (path_exists w "demo-perfect.html" = false ->
   exit_status (main w s) = Some 1%Z
   /\ listened (main w s) = false
   /\ served (main w s) = false)
  /\ (listened (main w s) = true ->
      forall p, route w p = Some (RewriteTo "/demo-perfect.html") ->
                resolves w "/demo-perfect.html" = true).
Proof.
  split.
  - intros He. unfold main.
    destruct (demo_dir_exists s); [|repeat split; reflexivity].
    rewrite He. repeat split; reflexivity.
  - intros Hl p _. apply (listened_entry_exists w s Hl).
Qed.

(** C1, witness: an empty root stops [main]; a root holding the entry file
    lets it listen, and [/about] falls back to a file that is there. *)
Lemma startup_guards_spa_entry_witness :
  (path_exists empty_root "demo-perfect.html" = false
   /\ exit_status (main empty_root normal_start) = Some 1%Z
   /\ listened (main empty_root normal_start) = false
   /\ served (main empty_root normal_start) = false)
  /\ (listened (main entry_only normal_start) = true
      /\ route entry_only "/about" = Some (RewriteTo "/demo-perfect.html")
      /\ resolves entry_only "/demo-perfect.html" = true).
Proof.
  split.
  - split; [reflexivity|].
    apply (proj1 (startup_guards_spa_entry empty_root normal_start)).
    reflexivity.
  - split; [reflexivity|]. split; [reflexivity|].
    apply (proj2 (startup_guards_spa_entry entry_only normal_start)
             eq_refl "/about").
    reflexivity.
Defined.

(** C1, counterexample: with [demo-perfect.html] present and
    [shift-system-spa.html] absent, [main] listens, [/shift] is rewritten
    to [/shift-system-spa.html], and that path names nothing under the
    root: not every rewritten path resolves to an existing file. *)
Lemma shift_target_unchecked :
  ~ (forall (w : World) (s : Startup) (p p' : string),
       listened (main w s) = true ->
       route w p = Some (RewriteTo p') ->
       resolves w p' = true).
Proof.
  intros H.
  specialize (H entry_only normal_start "/shift" "/shift-system-spa.html"
                eq_refl eq_refl).
  discriminate H.
Qed.

(** C2.  A target that starts with [/api/] gets the API payload, whatever
    the file system holds: the decision is [ServeReservedPayload api] and
    the response is the one of [handle_api_request], status 200 with the
    fixed JSON text as its body. *)
Theorem api_prefix_serves_api_payload (w : World) (p : string) :
  startswith "/api/" p = true ->
  route w p = Some (ServeReservedPayload api)
  /\ do_GET w p = Some (handle_api_request w p)
  /\ status (handle_api_request w p) = 200
  /\ body (handle_api_request w p) = json_dumps api_response.
Proof.
  intros H. unfold do_GET. rewrite (route_api w p H). now repeat split.
Qed.

(** C2, witness: [/api/users] on a root that holds only the entry file. *)
Lemma api_prefix_serves_api_payload_witness :
  startswith "/api/" "/api/users" = true
  /\ route entry_only "/api/users" = Some (ServeReservedPayload api)
  /\ do_GET entry_only "/api/users"
     = Some (handle_api_request entry_only "/api/users")
  /\ status (handle_api_request entry_only "/api/users") = 200
  /\ body (handle_api_request entry_only "/api/users") = json_dumps api_response.
Proof.
  split; [reflexivity|].
  apply (api_prefix_serves_api_payload entry_only "/api/users"). reflexivity.
Defined.

(** C3.  [/shift] and [/shift-system] are both rewritten to
    [/shift-system-spa.html], on any file system, and the static layer is
    then run on the rewritten path. *)
Theorem shift_paths_rewrite (w : World) :
  route w "/shift" = Some (RewriteTo "/shift-system-spa.html")
  /\ route w "/shift-system" = Some (RewriteTo "/shift-system-spa.html")
  /\ do_GET w "/shift"
     = SimpleHTTPRequestHandler_do_GET w PerfectSPAHandler "/shift-system-spa.html"
  /\ do_GET w "/shift-system"
     = SimpleHTTPRequestHandler_do_GET w PerfectSPAHandler "/shift-system-spa.html".
Proof. repeat split; reflexivity. Qed.

(** C4 (as amended).  A target other than [/], [/shift] and
    [/shift-system], whose parsed path is not reserved, that holds no dot,
    does not start with [/api/] and names nothing under the serving root,
    is rewritten to [/demo-perfect.html]. *)
Theorem spa_fallback (w : World) (p q : string) :
  urlparse_path (netloc_ok w) p = Some q ->
  reserved q = false ->
  p <> "/shift" ->
  p <> "/shift-system" ->
  p <> "/" ->
  contains "." p = false ->
  startswith "/api/" p = false ->
  resolves w p = false ->
  route w p = Some (RewriteTo "/demo-perfect.html")
  /\ do_GET w p
     = SimpleHTTPRequestHandler_do_GET w PerfectSPAHandler "/demo-perfect.html".
Proof.
  intros Hq Hr Hs Hss Hroot Hdot Hapi Hex.
  assert (R : route w p = Some (RewriteTo "/demo-perfect.html")).
  { rewrite (route_not_reserved w p q Hq Hr).
    apply String.eqb_neq in Hs, Hss, Hroot.
    now rewrite Hs, Hss, Hroot, Hex, Hapi, Hdot. }
  split; [exact R|]. unfold do_GET. now rewrite R.
Qed.

(** C4, witness: [/foo] on an empty root. *)
Lemma spa_fallback_witness :
  (urlparse_path (netloc_ok empty_root) "/foo" = Some "/foo"
   /\ reserved "/foo" = false
   /\ contains "." "/foo" = false
   /\ startswith "/api/" "/foo" = false
   /\ resolves empty_root "/foo" = false)
  /\ route empty_root "/foo" = Some (RewriteTo "/demo-perfect.html")
  /\ do_GET empty_root "/foo"
     = SimpleHTTPRequestHandler_do_GET empty_root PerfectSPAHandler
         "/demo-perfect.html".
Proof.
  split; [repeat split; reflexivity|].
  apply (spa_fallback empty_root "/foo" "/foo");
    try reflexivity; discriminate.
Defined.

(** C4, counterexample: [/shift] is not reserved, is not [/], holds no
    dot, does not start with [/api/] and names nothing on an empty root,
    yet it is rewritten to [/shift-system-spa.html], not to
    [/demo-perfect.html]. *)
Lemma shift_not_spa_fallback :
  ~ (forall (w : World) (p : string),
       reserved p = false ->
       p <> "/" ->
       contains "." p = false ->
       startswith "/api/" p = false ->
       resolves w p = false ->
       route w p = Some (RewriteTo "/demo-perfect.html")).
Proof.
  intros H.
  assert (Hr : route empty_root "/shift" = Some (RewriteTo "/demo-perfect.html")).
  { apply H; try reflexivity. discriminate. }
  discriminate Hr.
Qed.




(** C6.  [/metrics], [/health], [/sw.js] and [/manifest.json] each get
    their own fixed payload, on any file system: also one where a file of
    that name exists, since the tests come before any file lookup. *)
Theorem reserved_paths_serve_payloads (w : World) :
  (route w "/metrics" = Some (ServeReservedPayload metrics)
   /\ route w "/health" = Some (ServeReservedPayload health)
   /\ route w "/sw.js" = Some (ServeReservedPayload service_worker)
   /\ route w "/manifest.json" = Some (ServeReservedPayload manifest))
  /\ (do_GET w "/metrics" = Some (handle_metrics_request w "/metrics")
      /\ do_GET w "/health" = Some (handle_health_check w "/health")
      /\ do_GET w "/sw.js" = Some (serve_service_worker w "/sw.js")
      /\ do_GET w "/manifest.json" = Some (serve_manifest w "/manifest.json")).
Proof. repeat split; reflexivity. Qed.

(** C7.  Two requests for [/health], in any two worlds (other files, other
    clock), get the same body: the serialisation of the fixed dict, which
    opens with the status [healthy] and carries a constant timestamp. *)
Theorem health_body_constant (w1 w2 : World) :
  exists r1 r2,
    do_GET w1 "/health" = Some r1
    /\ do_GET w2 "/health" = Some r2
    /\ body r1 = body r2
    /\ body r1 = json_dumps health_status
    /\ startswith ("{" ++ nl ++ "  " ++ quoted "status" ++ ": "
                   ++ quoted "healthy" ++ ",") (body r1) = true
    /\ exists items,
         health_status = JDict items
         /\ In (u "status", JStr (u "healthy")) items
         /\ In (u "timestamp", JStr (u "2025-09-26T10:30:00Z")) items.
Proof.
  exists (handle_health_check w1 "/health"), (handle_health_check w2 "/health").
  repeat split; try reflexivity.
  eexists. split; [reflexivity|]. split; simpl; auto.
Qed.



(** C9.  When the serving root is missing, or [demo-perfect.html] is
    missing, or the port cannot be bound, [main] ends the process with
    status 1 and the serving loop is never entered. *)
Theorem startup_failures_exit_nonzero (w : World) (s : Startup) :
  demo_dir_exists s = false
  \/ path_exists w "demo-perfect.html" = false
  \/ tcp_bind s <> Bound ->
  exit_status (main w s) = Some 1%Z
  /\ served (main w s) = false.
Proof.
  intros H. unfold main.
  destruct (demo_dir_exists s) eqn:Hd; [|split; reflexivity].
  destruct (path_exists w "demo-perfect.html") eqn:He; [|split; reflexivity].
  destruct (path_exists w "dist");
    unfold TCPServer;
    (destruct (tcp_bind s) as [|errno|] eqn:Hb;
     [ exfalso; destruct H as [H|[H|H]]; [discriminate | discriminate | now apply H]
     | cbn; destruct (errno =? 48)%Z; split; reflexivity
     | split; reflexivity ]).
Qed.

(** C9, witness: each of the three failures. *)
Lemma startup_failures_exit_nonzero_witness :
  (demo_dir_exists no_directory = false
   /\ exit_status (main entry_only no_directory) = Some 1%Z
   /\ served (main entry_only no_directory) = false)
  /\ (path_exists empty_root "demo-perfect.html" = false
      /\ exit_status (main empty_root normal_start) = Some 1%Z
      /\ served (main empty_root normal_start) = false)
  /\ (tcp_bind port_taken <> Bound
      /\ exit_status (main entry_only port_taken) = Some 1%Z
      /\ served (main entry_only port_taken) = false).
Proof.
  split; [|split].
  - split; [reflexivity|].
    apply (startup_failures_exit_nonzero entry_only no_directory).
    left; reflexivity.
  - split; [reflexivity|].
    apply (startup_failures_exit_nonzero empty_root normal_start).
    right; left; reflexivity.
  - split; [discriminate|].
    apply (startup_failures_exit_nonzero entry_only port_taken).
    right; right; discriminate.
Defined.

(** C10.  The reserved tests look at the parsed path, so a query string
    after [/health], [/metrics], [/sw.js], [/manifest.json] or a path under
    [/api/] changes nothing; the [/shift] tests, the existence test and the
    dot test look at the raw target: [/shift?q] and [/shift-system?q] are
    never rewritten to [/shift-system-spa.html], [/shift?q] falls back to
    the SPA entry exactly when nothing named [shift?q] exists and [q] holds
    no dot, and a dot in the query string rules the fallback out for any
    target. *)
Theorem query_string_asymmetry (w : World) (q : string) :
  (route w ("/health?" ++ q) = Some (ServeReservedPayload health)
   /\ route w ("/metrics?" ++ q) = Some (ServeReservedPayload metrics)
   /\ route w ("/sw.js?" ++ q) = Some (ServeReservedPayload service_worker)
   /\ route w ("/manifest.json?" ++ q) = Some (ServeReservedPayload manifest)
   /\ route w ("/api/x?" ++ q) = Some (ServeReservedPayload api))
  /\ (route w ("/shift?" ++ q) <> Some (RewriteTo "/shift-system-spa.html")
      /\ route w ("/shift-system?" ++ q) <> Some (RewriteTo "/shift-system-spa.html"))
  /\ (route w ("/shift?" ++ q) = Some (RewriteTo "/demo-perfect.html")
      <-> path_exists w ("shift?" ++ q) = false /\ contains "." q = false)
  /\ (forall p, route w p = Some (RewriteTo "/demo-perfect.html") ->
                path_exists w (lstrip (is_char "/") p) = false
                /\ contains "." p = false)
  /\ (forall p, contains "." q = true ->
                route w (p ++ "?" ++ q) <> Some (RewriteTo "/demo-perfect.html")).
Proof.
  split; [|split; [|split; [|split]]].
  - repeat split; unfold route.
    + replace (urlparse_path (netloc_ok w) ("/health?" ++ q)) with (Some "/health");
        [reflexivity|].
      symmetry; apply (urlparse_path_query (netloc_ok w) "h" "ealth" q); reflexivity.
    + replace (urlparse_path (netloc_ok w) ("/metrics?" ++ q)) with (Some "/metrics");
        [reflexivity|].
      symmetry; apply (urlparse_path_query (netloc_ok w) "m" "etrics" q); reflexivity.
    + replace (urlparse_path (netloc_ok w) ("/sw.js?" ++ q)) with (Some "/sw.js");
        [reflexivity|].
      symmetry; apply (urlparse_path_query (netloc_ok w) "s" "w.js" q); reflexivity.
    + replace (urlparse_path (netloc_ok w) ("/manifest.json?" ++ q))
        with (Some "/manifest.json"); [reflexivity|].
      symmetry; apply (urlparse_path_query (netloc_ok w) "m" "anifest.json" q);
        reflexivity.
    + replace (urlparse_path (netloc_ok w) ("/api/x?" ++ q)) with (Some "/api/x");
        [reflexivity|].
      symmetry; apply (urlparse_path_query (netloc_ok w) "a" "pi/x" q); reflexivity.
  - rewrite route_shift_query, route_shift_system_query.
    split; match goal with |- context [if ?b then _ else _] => destruct b end;
      discriminate.
  - rewrite route_shift_query.
    destruct (path_exists w ("shift?" ++ q)), (contains "." q); cbn;
      split; try discriminate; try tauto; intros [? ?]; discriminate.
  - intros p. apply route_fallback_inv.
  - intros p Hdot Hr. apply route_fallback_inv in Hr as [_ Hc].
    rewrite !contains_app, Hdot in Hc. rewrite !orb_true_r in Hc. discriminate.
Qed.

(** C10, witness: on an empty root [/about?v=1.0] is not rewritten, because
    of the dot in its query string, while [/about?v=1] is; [/health?x=1]
    is the health payload and [/shift?x=1] falls back to the SPA entry. *)
Lemma query_string_asymmetry_witness :
  (contains "." "v=1.0" = true
   /\ route empty_root ("/about" ++ "?" ++ "v=1.0")
      <> Some (RewriteTo "/demo-perfect.html"))
  /\ route empty_root "/about?v=1" = Some (RewriteTo "/demo-perfect.html")
  /\ route empty_root ("/health?" ++ "x=1") = Some (ServeReservedPayload health)
  /\ route empty_root ("/shift?" ++ "x=1") = Some (RewriteTo "/demo-perfect.html").
Proof.
  split; [split; [reflexivity|] | split; [reflexivity | split]].
  - apply (proj2 (proj2 (proj2 (proj2 (query_string_asymmetry empty_root "v=1.0"))))
             "/about").
    reflexivity.
  - apply (proj1 (proj1 (query_string_asymmetry empty_root "x=1"))).
  - apply (proj2 (proj1 (proj2 (proj2 (query_string_asymmetry empty_root "x=1"))))).
    split; reflexivity.
Defined.

(** * Further properties *)

(** ** Headers of every response *)

Lemma fixed_in_end_headers (h : Handler) (path : string) :
  incl (fixed_headers h) (end_headers h path).
Proof.
  destruct h; cbn [fixed_headers end_headers]; [|apply incl_refl].
  intros x Hx. rewrite !in_app_iff.
  cbn in Hx.
  repeat (destruct Hx as [<-|Hx]; [cbn; tauto|]). contradiction.
Qed.

Lemma end_headers_in_respond (w : World) (h : Handler) (path : string)
    (code : nat) (sent : list header) (content : string) :
  incl (end_headers h path) (headers (respond w h path code sent content)).
Proof.
  unfold respond. cbn [headers]. intros x Hx. rewrite !in_app_iff. tauto.
Qed.

Lemma end_headers_in_finish (h : Handler) (path : string) (r : Response) :
  incl (end_headers h path) (headers (finish h path r)).
Proof.
  unfold finish. cbn [headers]. intros x Hx. rewrite in_app_iff. tauto.
Qed.

(** Whatever the static layer answers, the class's [end_headers] ran on
    the path it was given. *)
Lemma static_get_end_headers (w : World) (h : Handler) (path : string)
    (r : Response) :
  SimpleHTTPRequestHandler_do_GET w h path = Some r ->
  incl (end_headers h path) (headers r).
Proof.
  unfold SimpleHTTPRequestHandler_do_GET, send_error.
  destruct (isdir w (translate_path w path)).
  { destruct (serve_directory w path (translate_path w path)); cbn;
      [|discriminate].
    intros [= <-]. apply end_headers_in_finish. }
  destruct (endswith "/" (translate_path w path)).
  { intros [= <-]. apply end_headers_in_respond. }
  destruct (open_file w (translate_path w path)); [| |discriminate].
  { destruct (serve_file w (translate_path w path)); cbn; [|discriminate].
    intros [= <-]. apply end_headers_in_finish. }
  intros [= <-]. apply end_headers_in_respond.
Qed.

Lemma static_head_end_headers (w : World) (h : Handler) (path : string)
    (r : Response) :
  SimpleHTTPRequestHandler_do_HEAD w h path = Some r ->
  incl (end_headers h path) (headers r).
Proof.
  unfold SimpleHTTPRequestHandler_do_HEAD.
  destruct (SimpleHTTPRequestHandler_do_GET w h path) as [r0|] eqn:E;
    cbn; [|discriminate].
  intros [= <-]. cbn [headers]. now apply static_get_end_headers in E.
Qed.

Lemma incl_fixed (h : Handler) (path : string) (l : list header) :
  incl (end_headers h path) l -> incl (fixed_headers h) l.
Proof. intros H. eapply incl_tran; [apply fixed_in_end_headers | exact H]. Qed.

Lemma one_request_fixed_headers (w : World) (h : Handler) (c : Command)
    (path : string) (r : Response) :
  handle_one_request w h c path = Some r ->
  incl (fixed_headers h) (headers r).
Proof.
  unfold handle_one_request.
  destruct (negb (hasattr h ("do_" ++ command_name c))) eqn:Hm.
  { intros [= <-]. eapply incl_fixed, end_headers_in_respond. }
  destruct c, h; try discriminate Hm; cbn [call_method].
  - (* GET, enhanced *)
    unfold do_GET. destruct (route w path) as [[kind|path'|]|]; try discriminate.
    + intros [= <-]. destruct kind; eapply incl_fixed, end_headers_in_respond.
    + intros H. eapply incl_fixed, static_get_end_headers, H.
    + intros H. eapply incl_fixed, static_get_end_headers, H.
  - (* GET, minimal *)
    unfold simple_do_GET. intros H. eapply incl_fixed, static_get_end_headers, H.
  - intros H. eapply incl_fixed, static_head_end_headers, H.
  - intros H. eapply incl_fixed, static_head_end_headers, H.
  - intros [= <-]. eapply incl_fixed, end_headers_in_respond.
Qed.

(** X1.  Whatever either handler writes in answer to an HTTP/1.x request
    line, for any method and target (a payload, a file, a redirect, a 404
    or a 501), starts with a status line and carries the headers its
    [end_headers] adds: for the enhanced handler the CORS, security and AI
    headers, for the minimal one the CORS origin and
    [Cache-Control: no-cache].  In answer to an HTTP/0.9 request line it
    writes no status line and no header at all. *)
Theorem responses_carry_fixed_headers (w : World) (h : Handler)
    (rl : RequestLine) (wr : Wire) :
  handle_request w h rl = Some wr ->
  if http09 rl
  then status_line wr = None /\ wire_headers wr = []
  else (exists code, status_line wr = Some code)
       /\ incl (fixed_headers h) (wire_headers wr).
Proof.
  unfold handle_request.
  destruct (handle_one_request w h (request_command rl) (request_path rl))
    as [r|] eqn:E; [|discriminate].
  intros [= <-]. unfold written. destruct (http09 rl); cbn.
  - now split.
  - split; [now exists (status r)|].
    exact (one_request_fixed_headers w h _ _ r E).
Qed.

(** X1, witness: a 404 of the enhanced handler, asked for with and without
    a version. *)
Lemma responses_carry_fixed_headers_witness :
  (handle_request empty_root PerfectSPAHandler (Full GET "/missing.png")
   = Some (written false (send_error empty_root PerfectSPAHandler "/missing.png"
                            404 "File not found"))
   /\ incl (fixed_headers PerfectSPAHandler)
           (wire_headers
              (written false (send_error empty_root PerfectSPAHandler
                                "/missing.png" 404 "File not found"))))
  /\ (handle_request empty_root PerfectSPAHandler (Simple "/missing.png")
      = Some (written true (send_error empty_root PerfectSPAHandler "/missing.png"
                              404 "File not found"))
      /\ wire_headers
           (written true (send_error empty_root PerfectSPAHandler
                            "/missing.png" 404 "File not found")) = []).
Proof.
  split; (split; [reflexivity|]).
  - apply (responses_carry_fixed_headers empty_root PerfectSPAHandler
             (Full GET "/missing.png")).
    reflexivity.
  - apply (responses_carry_fixed_headers empty_root PerfectSPAHandler
             (Simple "/missing.png")).
    reflexivity.
Defined.

(** The cache policy of a path that ends in [.html]. *)
Lemma no_store_in_end_headers (path : string) :
  endswith ".js" path = false ->
  endswith ".css" path = false ->
  endswith ".html" path = true ->
  In no_store (end_headers PerfectSPAHandler path).
Proof.
  intros Hj Hc Hh. cbn [end_headers]. rewrite Hj, Hc, Hh.
  rewrite !in_app_iff. right; left. now left.
Qed.

(** Both rewrites of [do_GET] are to pages. *)
Lemma route_rewrite_targets (w : World) (p t : string) :
  route w p = Some (RewriteTo t) ->
  t = "/shift-system-spa.html" \/ t = "/demo-perfect.html".
Proof.
  unfold route.
  destruct (urlparse_path (netloc_ok w) p) as [q|]; [|discriminate].
  repeat match goal with
         | |- context [if ?b then _ else _] => destruct b
         end; intros [= <-]; auto.
Qed.

Lemma rewritten_no_store (w : World) (p t : string) (r : Response) :
  route w p = Some (RewriteTo t) ->
  do_GET w p = Some r ->
  In no_store (headers r).
Proof.
  intros Hr. unfold do_GET. rewrite Hr. intros Hs.
  apply static_get_end_headers in Hs. apply Hs.
  destruct (route_rewrite_targets w p t Hr) as [-> | ->];
    now apply no_store_in_end_headers.
Qed.

(** X2.  What is written in answer to an HTTP/1.x GET that [do_GET]
    rewrites, the page itself or the 404 when the page is missing, carries
    [Cache-Control: no-cache, no-store, must-revalidate]: the header is
    chosen from [self.path] after the rewrite.  (An HTTP/0.9 GET gets no
    header.) *)
Theorem rewritten_responses_no_store (w : World) (rl : RequestLine)
    (t : string) (wr : Wire) :
  request_command rl = GET ->
  route w (request_path rl) = Some (RewriteTo t) ->
  handle_request w PerfectSPAHandler rl = Some wr ->
  if http09 rl then wire_headers wr = [] else In no_store (wire_headers wr).
Proof.
  intros Hc Hr. rewrite (handle_request_get w rl Hc).
  destruct (do_GET w (request_path rl)) as [r|] eqn:E; [|discriminate].
  intros [= <-]. unfold written. destruct (http09 rl); cbn; [reflexivity|].
  exact (rewritten_no_store w _ t r Hr E).
Qed.

(** X2, witness: [GET /shift HTTP/1.x] on an empty root, whose page is
    missing. *)
Lemma rewritten_responses_no_store_witness :
  (request_command (Full GET "/shift") = GET
   /\ route empty_root (request_path (Full GET "/shift"))
      = Some (RewriteTo "/shift-system-spa.html")
   /\ handle_request empty_root PerfectSPAHandler (Full GET "/shift")
      = Some (written false
                (send_error empty_root PerfectSPAHandler "/shift-system-spa.html"
                   404 "File not found")))
  /\ In no_store
        (wire_headers
           (written false
              (send_error empty_root PerfectSPAHandler "/shift-system-spa.html"
                 404 "File not found"))).
Proof.
  split; [repeat split; reflexivity|].
  apply (rewritten_responses_no_store empty_root (Full GET "/shift")
           "/shift-system-spa.html"); reflexivity.
Defined.

(** ** Methods *)



(** X4.  HEAD is not routed: the enhanced handler inherits [do_HEAD], which
    goes to the static layer with the path as received.  For a target that
    GET answers with a fixed payload and whose translated name is not a
    directory and fails to open with [OSError], an HTTP/1.x GET is
    answered 200 and an HTTP/1.x HEAD 404 without body; where [open]
    raises another exception, GET is still answered 200 and HEAD gets
    nothing. *)
Theorem head_bypasses_routing (w : World) (path : string) (kind : Payload) :
  route w (collapse_slashes path) = Some (ServeReservedPayload kind) ->
  isdir w (translate_path w (collapse_slashes path)) = false ->
  (exists wr, handle_request w PerfectSPAHandler (Full GET path) = Some wr
              /\ status_line wr = Some 200)
  /\ (open_file w (translate_path w (collapse_slashes path)) = OpenOSError ->
      exists wr, handle_request w PerfectSPAHandler (Full HEAD path) = Some wr
                 /\ status_line wr = Some 404
                 /\ wire_body wr = EmptyString)
  /\ (endswith "/" (translate_path w (collapse_slashes path)) = false ->
      open_file w (translate_path w (collapse_slashes path)) = OpenRaises ->
      handle_request w PerfectSPAHandler (Full HEAD path) = None).
Proof.
  intros Hr Hd.
  assert (Hh : handle_request w PerfectSPAHandler (Full HEAD path)
               = option_map (written false)
                   (SimpleHTTPRequestHandler_do_HEAD w PerfectSPAHandler
                      (collapse_slashes path))) by reflexivity.
  split; [|split].
  - exists (written false (serve_payload w (collapse_slashes path) kind)). split.
    + rewrite (handle_request_get w (Full GET path) eq_refl).
      change (request_path (Full GET path)) with (collapse_slashes path).
      unfold do_GET. now rewrite Hr.
    + now destruct kind.
  - intros Ho. rewrite Hh. unfold SimpleHTTPRequestHandler_do_HEAD.
    rewrite (static_get_missing w PerfectSPAHandler _ Hd Ho). cbn.
    eexists. repeat split.
  - intros He Ho. rewrite Hh. unfold SimpleHTTPRequestHandler_do_HEAD.
    now rewrite (static_get_raises w PerfectSPAHandler _ Hd He Ho).
Qed.

(** X4, witness: [/health] on an empty root. *)
Lemma head_bypasses_routing_witness :
  (route empty_root (collapse_slashes "/health") = Some (ServeReservedPayload health)
   /\ isdir empty_root (translate_path empty_root (collapse_slashes "/health")) = false
   /\ open_file empty_root (translate_path empty_root (collapse_slashes "/health"))
      = OpenOSError)
  /\ (exists wr, handle_request empty_root PerfectSPAHandler (Full GET "/health") = Some wr
                 /\ status_line wr = Some 200)
  /\ (exists wr, handle_request empty_root PerfectSPAHandler (Full HEAD "/health") = Some wr
                 /\ status_line wr = Some 404
                 /\ wire_body wr = EmptyString).
Proof.
  split; [repeat split; reflexivity|].
  destruct (head_bypasses_routing empty_root "/health" health eq_refl eq_refl)
    as (G & H & _).
  split; [exact G | exact (H eq_refl)].
Defined.

(** ** Payloads *)

Lemma payload_header_names (w : World) (path : string) (kind : Payload) :
  ~ In "Content-Length" (header_names (serve_payload w path kind)).
Proof.
  unfold header_names.
  destruct kind; cbn [serve_payload handle_api_request handle_metrics_request
                        handle_health_check serve_service_worker serve_manifest
                        respond headers send_response end_headers];
    rewrite !map_app; cbn [map fst app];
    (destruct (endswith ".js" path || endswith ".css" path);
     [|destruct (endswith ".html" path)]);
    cbn; intros H;
    repeat (destruct H as [H|H]; [discriminate H|]); exact H.
Qed.

(** X5.  A GET that reaches a fixed payload is answered with a body that
    depends on nothing but the payload: not on the target (every path under
    [/api/] returns the same bytes), not on the file system, not on the
    clock, not on the version of the request line.  For an HTTP/1.x
    request line the body follows a 200 status line and headers that hold
    the payload's [Content-Type] and no [Content-Length]; for an HTTP/0.9
    one nothing precedes it. *)
Theorem payload_responses (w1 w2 : World) (rl1 rl2 : RequestLine)
    (kind : Payload) :
  request_command rl1 = GET ->
  request_command rl2 = GET ->
  route w1 (request_path rl1) = Some (ServeReservedPayload kind) ->
  route w2 (request_path rl2) = Some (ServeReservedPayload kind) ->
  exists wr1 wr2,
    handle_request w1 PerfectSPAHandler rl1 = Some wr1
    /\ handle_request w2 PerfectSPAHandler rl2 = Some wr2
    /\ wire_body wr1 = wire_body wr2
    /\ (if http09 rl1
        then status_line wr1 = None /\ wire_headers wr1 = []
        else status_line wr1 = Some 200
             /\ In ("Content-Type", content_type kind) (wire_headers wr1)
             /\ ~ In "Content-Length" (wire_header_names wr1)).
Proof.
  intros C1 C2 H1 H2.
  exists (written (http09 rl1) (serve_payload w1 (request_path rl1) kind)),
         (written (http09 rl2) (serve_payload w2 (request_path rl2) kind)).
  rewrite (handle_request_get w1 rl1 C1), (handle_request_get w2 rl2 C2).
  unfold do_GET. rewrite H1, H2.
  split; [reflexivity|]. split; [reflexivity|]. split.
  { unfold written. destruct (http09 rl1), (http09 rl2), kind; reflexivity. }
  unfold written. destruct (http09 rl1); cbn [status_line wire_headers].
  { now split. }
  split; [now destruct kind|]. split.
  - destruct kind; cbn; tauto.
  - apply payload_header_names.
Qed.

(** X5, witness: two paths under [/api/], on two roots, one asked for
    without a version. *)
Lemma payload_responses_witness :
  (request_command (Full GET "/api/users") = GET
   /\ request_command (Simple "/api/orders/7?full=1") = GET
   /\ route empty_root (request_path (Full GET "/api/users"))
      = Some (ServeReservedPayload api)
   /\ route entry_only (request_path (Simple "/api/orders/7?full=1"))
      = Some (ServeReservedPayload api))
  /\ exists wr1 wr2,
       handle_request empty_root PerfectSPAHandler (Full GET "/api/users") = Some wr1
       /\ handle_request entry_only PerfectSPAHandler
            (Simple "/api/orders/7?full=1") = Some wr2
       /\ wire_body wr1 = wire_body wr2
       /\ status_line wr1 = Some 200
       /\ In ("Content-Type", content_type api) (wire_headers wr1)
       /\ ~ In "Content-Length" (wire_header_names wr1).
Proof.
  split; [repeat split; reflexivity|].
  apply (payload_responses empty_root entry_only (Full GET "/api/users")
           (Simple "/api/orders/7?full=1") api); reflexivity.
Defined.

(** X6.  [urlparse] cannot make [do_GET] fail on a target in origin form,
    one that opens with a single slash: a decision is always reached.
    (A target with a network location can: [urlparse] raises when it
    rejects the location.) *)
Theorem origin_form_always_routed (w : World) (c : ascii) (r : string) :
  is_unsafe_url_byte c = false ->
  Ascii.eqb c "/" = false ->
  exists d, route w (String "/" (String c r)) = Some d.
Proof.
  intros Hu Hs. unfold route.
  rewrite (urlparse_path_rooted (netloc_ok w) c r Hu Hs). cbv zeta.
  match goal with |- context [contains ";" ?x] => destruct (contains ";" x) end;
    eexists; reflexivity.
Qed.

(** X6, witness: [/a[b] is routed even where every network location is
    rejected, and there [http://[/x] is not. *)
Lemma origin_form_always_routed_witness :
  (is_unsafe_url_byte "a" = false /\ Ascii.eqb "a" "/" = false)
  /\ (exists d, route strict_root "/a[b" = Some d)
  /\ route strict_root "http://[/x" = None.
Proof.
  split; [split; reflexivity|]. split; [|reflexivity].
  apply (origin_form_always_routed strict_root "a" "[b"); reflexivity.
Defined.

(** X7.  When [do_GET] rewrites, exactly: [urlparse] accepted the target
    with a path that is not reserved, and either the target is [/shift] or
    [/shift-system] and the new path [/shift-system-spa.html], or the
    target is another one than [/], names nothing under the root, does
    not start with [/api/], holds no dot, and the new path is
    [/demo-perfect.html].  So [/] is never rewritten, and of the targets
    that name an existing file or directory only [/shift] and
    [/shift-system] are. *)
Theorem rewrites_characterised (w : World) (p t : string) :
  route w p = Some (RewriteTo t) <->
  (exists q, urlparse_path (netloc_ok w) p = Some q /\ reserved q = false)
  /\ ((t = "/shift-system-spa.html" /\ (p = "/shift-system" \/ p = "/shift"))
      \/ (t = "/demo-perfect.html"
          /\ p <> "/shift-system" /\ p <> "/shift" /\ p <> "/"
          /\ resolves w p = false
          /\ startswith "/api/" p = false
          /\ contains "." p = false)).
Proof.
  split.
  - unfold route.
    destruct (urlparse_path (netloc_ok w) p) as [q|] eqn:Hq; [|discriminate].
    destruct (startswith "/api/" q) eqn:R1; [discriminate|].
    destruct (String.eqb q "/metrics") eqn:R2; [discriminate|].
    destruct (String.eqb q "/health") eqn:R3; [discriminate|].
    destruct (String.eqb q "/sw.js") eqn:R4; [discriminate|].
    destruct (String.eqb q "/manifest.json") eqn:R5; [discriminate|].
    intros H. split.
    { exists q. split; [reflexivity|]. unfold reserved.
      now rewrite R1, R2, R3, R4, R5. }
    revert H. unfold resolves.
    destruct (String.eqb p "/shift-system") eqn:E1.
    { cbn. intros [= <-]. apply String.eqb_eq in E1. auto. }
    destruct (String.eqb p "/shift") eqn:E2.
    { cbn. intros [= <-]. apply String.eqb_eq in E2. auto. }
    cbn [orb].
    destruct (String.eqb p "/") eqn:E3; cbn [negb andb]; [discriminate|].
    destruct (path_exists w (lstrip (is_char "/") p)); cbn [negb]; [discriminate|].
    destruct (startswith "/api/" p); cbn [negb andb]; [discriminate|].
    destruct (contains "." p); cbn [negb]; [discriminate|].
    intros [= <-]. right.
    apply String.eqb_neq in E1, E2, E3. repeat split; assumption.
  - intros [(q & Hq & Hr) H]. rewrite (route_not_reserved w p q Hq Hr).
    destruct H as [(-> & [-> | ->]) | (-> & H1 & H2 & H3 & H4 & H5 & H6)].
    + reflexivity.
    + reflexivity.
    + apply String.eqb_neq in H1, H2, H3.
      now rewrite H1, H2, H3, H4, H5, H6.
Qed.

(** X7, witness: on an empty root [/about] is rewritten and
    [/about.html] is not. *)
Lemma rewrites_characterised_witness :
  (route empty_root "/about" = Some (RewriteTo "/demo-perfect.html")
   /\ resolves empty_root "/about" = false
   /\ contains "." "/about" = false)
  /\ route empty_root "/about.html" <> Some (RewriteTo "/demo-perfect.html").
Proof.
  split.
  - destruct (proj1 (rewrites_characterised empty_root "/about"
                       "/demo-perfect.html") eq_refl)
      as (_ & [(E & _) | (_ & _ & _ & _ & R & _ & D)]); [discriminate E|].
    split; [reflexivity|]. split; assumption.
  - intros H.
    destruct (proj1 (rewrites_characterised empty_root "/about.html"
                       "/demo-perfect.html") H)
      as (_ & [(E & _) | (_ & _ & _ & _ & _ & _ & D)]); discriminate.
Defined.

Lemma break_at_none (p : ascii -> bool) (s : string) :
  forallb_str (fun c => negb (p c)) s = true -> fst (break_at p s) = s.
Proof.
  intros H. rewrite <- (append_empty s) at 1.
  rewrite (break_at_app p s EmptyString H). apply append_empty.
Qed.

(** A fragment is not part of the parsed path. *)
Lemma urlparse_path_fragment (ok : string -> bool) (c : ascii) (b f : string) :
  Ascii.eqb c "/" = false ->
  forallb_str plain_char (String c b) = true ->
  urlparse_path ok (String "/" (String c b) ++ String "#" f)
  = Some (String "/" (String c b)).
Proof.
  intros Hs Hp.
  assert (Hall : forallb_str plain_char (String "/" (String c b)) = true)
    by (simpl in *; exact Hp).
  simpl in Hp. apply andb_true_iff in Hp as [Hc Hb].
  destruct (plain_char_elim _ Hc) as (Hu & _).
  change (String "/" (String c b) ++ String "#" f)
    with (String "/" (String c (b ++ String "#" f))).
  rewrite urlparse_path_rooted by assumption.
  rewrite remove_chars_app.
  rewrite (remove_chars_id is_unsafe_url_byte b) by plain_side Hb.
  change (String "/" (String c (b ++ remove_chars is_unsafe_url_byte (String "#" f))))
    with (String "/" (String c b) ++ String "#" (remove_chars is_unsafe_url_byte f)).
  cbv zeta.
  rewrite break_at_app by plain_side Hall.
  change (break_at (is_char "#") (String "#" (remove_chars is_unsafe_url_byte f)))
    with (EmptyString, String "#" (remove_chars is_unsafe_url_byte f)).
  cbn [fst]. rewrite append_empty.
  rewrite (break_at_none (is_char "?")) by plain_side Hall.
  rewrite (contains_none ";") by plain_side Hall.
  reflexivity.
Qed.

(** X8.  A fragment is treated like a query string: after a reserved path
    it changes nothing, while [/shift#f] is not the [/shift] rewrite and,
    a dot in the fragment counting as a dot, falls back to the SPA entry
    exactly when nothing named [shift#f] exists and [f] holds no dot. *)
Theorem fragment_asymmetry (w : World) (f : string) :
  (route w ("/health#" ++ f) = Some (ServeReservedPayload health)
   /\ route w ("/metrics#" ++ f) = Some (ServeReservedPayload metrics)
   /\ route w ("/sw.js#" ++ f) = Some (ServeReservedPayload service_worker)
   /\ route w ("/manifest.json#" ++ f) = Some (ServeReservedPayload manifest)
   /\ route w ("/api/x#" ++ f) = Some (ServeReservedPayload api))
  /\ route w ("/shift#" ++ f)
     = Some (if negb (path_exists w ("shift#" ++ f)) && negb (contains "." f)
             then RewriteTo "/demo-perfect.html"
             else ServeStaticOrFallback).
Proof.
  split.
  - repeat split; unfold route.
    + replace (urlparse_path (netloc_ok w) ("/health#" ++ f)) with (Some "/health");
        [reflexivity|].
      symmetry; apply (urlparse_path_fragment (netloc_ok w) "h" "ealth" f);
        reflexivity.
    + replace (urlparse_path (netloc_ok w) ("/metrics#" ++ f)) with (Some "/metrics");
        [reflexivity|].
      symmetry; apply (urlparse_path_fragment (netloc_ok w) "m" "etrics" f);
        reflexivity.
    + replace (urlparse_path (netloc_ok w) ("/sw.js#" ++ f)) with (Some "/sw.js");
        [reflexivity|].
      symmetry; apply (urlparse_path_fragment (netloc_ok w) "s" "w.js" f);
        reflexivity.
    + replace (urlparse_path (netloc_ok w) ("/manifest.json#" ++ f))
        with (Some "/manifest.json"); [reflexivity|].
      symmetry; apply (urlparse_path_fragment (netloc_ok w) "m" "anifest.json" f);
        reflexivity.
    + replace (urlparse_path (netloc_ok w) ("/api/x#" ++ f)) with (Some "/api/x");
        [reflexivity|].
      symmetry; apply (urlparse_path_fragment (netloc_ok w) "a" "pi/x" f);
        reflexivity.
  - rewrite (route_not_reserved w ("/shift#" ++ f) "/shift").
    + unfold resolves. cbn. destruct (path_exists w _); reflexivity.
    + apply (urlparse_path_fragment (netloc_ok w) "s" "hift" f); reflexivity.
    + reflexivity.
Qed.

(** ** More on startup *)

Ltac run_cases w s :=
  unfold main, TCPServer, serve_forever;
  destruct (demo_dir_exists s) eqn:?;
  destruct (path_exists w "demo-perfect.html") eqn:?;
  destruct (path_exists w "dist") eqn:?;
  destruct (tcp_bind s) as [|? |] eqn:?;
  destruct (serving s) as [|? | |] eqn:?;
  cbn;
  repeat match goal with
         | |- context [(?e =? 48)%Z] => destruct (Z.eqb_spec e 48); cbn
         end.

(** X9.  The status with which the enhanced server's process ends: 0
    exactly when the checks passed, the port was bound and the user stopped
    the server with Ctrl+C; none while it keeps serving; 1 in every other
    case, an exception raised while serving included. *)
Theorem main_exit_status (w : World) (s : Startup) :
  let started :=
    demo_dir_exists s = true /\ path_exists w "demo-perfect.html" = true
    /\ tcp_bind s = Bound in
  (exit_status (main w s) = Some 0%Z <-> started /\ serving s = Interrupted)
  /\ (exit_status (main w s) = None <-> started /\ serving s = NeverReturns)
  /\ (exit_status (main w s) = Some 0%Z
      \/ exit_status (main w s) = None
      \/ exit_status (main w s) = Some 1%Z).
Proof.
  cbv zeta. run_cases w s;
    (split; [|split]);
    try (split; [discriminate | intros ((? & ? & ?) & ?); discriminate]);
    try (split; [intros _; repeat split | reflexivity]);
    auto.
Qed.

(** X10.  The listening socket is closed on every run of [main] that
    opened it and ended, whether by Ctrl+C or by an exception; and it was
    opened before the serving loop was entered. *)
Theorem main_closes_socket (w : World) (s : Startup) :
  (served (main w s) = true -> listened (main w s) = true)
  /\ (listened (main w s) = true ->
      exit_status (main w s) <> None ->
      In ServerClose (fst (main w s))).
Proof.
  run_cases w s; split; intros; try discriminate; try congruence;
    cbn; tauto.
Qed.

(** X10, witness: Ctrl+C on a server that started. *)
Lemma main_closes_socket_witness :
  (listened (main entry_only interrupted_start) = true
   /\ exit_status (main entry_only interrupted_start) <> None)
  /\ In ServerClose (fst (main entry_only interrupted_start)).
Proof.
  split; [split; [reflexivity | discriminate]|].
  apply (proj2 (main_closes_socket entry_only interrupted_start));
    [reflexivity | discriminate].
Defined.

(** X11.  Of the file system, [main] looks at [demo-perfect.html] and at
    [dist] only, and a missing [dist] costs one warning line: two roots
    that agree on [demo-perfect.html] give runs that end the same way and,
    the warning left out, do the same things. *)
Theorem main_dist_only_warns (w w' : World) (s : Startup) :
  path_exists w "demo-perfect.html" = path_exists w' "demo-perfect.html" ->
  snd (main w s) = snd (main w' s)
  /\ without_dist_warning (fst (main w s))
     = without_dist_warning (fst (main w' s))
  /\ (In (Printed DistWarning) (fst (main w s)) <->
      demo_dir_exists s = true /\ path_exists w "demo-perfect.html" = true
      /\ path_exists w "dist" = false).
Proof.
  intros He. unfold main, TCPServer, serve_forever. rewrite <- He.
  destruct (demo_dir_exists s);
    destruct (path_exists w "demo-perfect.html");
    destruct (path_exists w "dist");
    destruct (path_exists w' "dist");
    destruct (tcp_bind s) as [|? |];
    destruct (serving s) as [|? | |];
    cbn;
    repeat match goal with
           | |- context [(?e =? 48)%Z] => destruct (e =? 48)%Z; cbn
           end;
    (split; [reflexivity|]; split; [reflexivity|]);
    (split; [intros H; repeat (destruct H as [H|H]; try discriminate H);
                       try contradiction; auto
            | intros (? & ? & ?); try discriminate; auto]).
Qed.

(** X11, witness: a root with the entry file only against one that has
    [dist] as well. *)
Lemma main_dist_only_warns_witness :
  path_exists entry_only "demo-perfect.html"
  = path_exists built_root "demo-perfect.html"
  /\ snd (main entry_only interrupted_start) = snd (main built_root interrupted_start)
  /\ without_dist_warning (fst (main entry_only interrupted_start))
     = without_dist_warning (fst (main built_root interrupted_start))
  /\ (In (Printed DistWarning) (fst (main entry_only interrupted_start)) <->
      demo_dir_exists interrupted_start = true
      /\ path_exists entry_only "demo-perfect.html" = true
      /\ path_exists entry_only "dist" = false).
Proof.
  split; [reflexivity|].
  apply (main_dist_only_warns entry_only built_root interrupted_start).
  reflexivity.
Defined.

(** X12.  The hint that the port is already in use is printed for an
    [OSError] whose [errno] is 48 and for no other: with the checks passed,
    either from binding or from the serving loop.  An [OSError] with
    another number, 98 among them, gets the general line. *)
Theorem port_in_use_only_errno_48 (w : World) (s : Startup) :
  let checked :=
    demo_dir_exists s = true /\ path_exists w "demo-perfect.html" = true in
  (In (Printed PortInUse) (fst (main w s)) <->
   checked /\ (tcp_bind s = BindOSError 48
               \/ (tcp_bind s = Bound /\ serving s = ServeOSError 48)))
  /\ (In (Printed ErrorStartingServer) (fst (main w s)) <->
      checked /\ ((exists e, e <> 48%Z /\ tcp_bind s = BindOSError e)
                  \/ (tcp_bind s = Bound
                      /\ exists e, e <> 48%Z /\ serving s = ServeOSError e))).
Proof.
  cbv zeta. run_cases w s; subst;
    (split;
     (split;
     [ intros Hin; repeat (destruct Hin as [Hin|Hin]; try discriminate Hin);
       try contradiction;
       (split; [split; reflexivity|]); eauto 6
     | intros ((? & ?) & Hc); try discriminate;
       repeat match goal with
              | H : _ \/ _ |- _ => destruct H
              | H : _ /\ _ |- _ => destruct H
              | H : exists _, _ |- _ => destruct H
              end;
       try discriminate; try congruence;
       cbn; repeat (first [left; reflexivity | right]) ])).
Qed.

(** X13.  The minimal server's script checks nothing before it opens the
    socket and never ends with a failure status: when the port cannot be
    bound it prints one line and the process ends with status 0, as it
    does after Ctrl+C and after an exception in the serving loop. *)
Theorem simple_main_never_fails (s : Startup) :
  (listened (simple_main s) = true <-> tcp_bind s = Bound)
  /\ (exit_status (simple_main s) = None <->
      tcp_bind s = Bound /\ serving s = NeverReturns)
  /\ (exit_status (simple_main s) = None
      \/ exit_status (simple_main s) = Some 0%Z)
  /\ (tcp_bind s <> Bound ->
      simple_main s = ([Printed UnexpectedError], Value tt)).
Proof.
  unfold simple_main, TCPServer, serve_forever.
  destruct (tcp_bind s) as [|? |]; destruct (serving s) as [|? | |]; cbn;
    repeat split; intros; try discriminate; try congruence; auto;
    match goal with
    | H : _ /\ _ |- _ => destruct H; discriminate
    end.
Qed.

(** X13, witness: the port is taken and the serving root is gone. *)
Lemma simple_main_never_fails_witness :
  tcp_bind (mkStartup false (BindOSError 98) NeverReturns) <> Bound
  /\ simple_main (mkStartup false (BindOSError 98) NeverReturns)
     = ([Printed UnexpectedError], Value tt)
  /\ exit_status (simple_main (mkStartup false (BindOSError 98) NeverReturns))
     = Some 0%Z.
Proof.
  split; [discriminate|]. split; [|reflexivity].
  apply (proj2 (proj2 (proj2 (simple_main_never_fails
                                (mkStartup false (BindOSError 98) NeverReturns))))).
  discriminate.
Defined.

(** ** The minimal handler *)

(** X14.  The minimal handler has no SPA fallback: [/] and the empty path
    are served as [/demo-perfect.html], every other target goes to the
    static layer as received.  So a route-like path whose translated name
    is no directory and fails to open with [OSError] is answered
    [404 File not found], where the enhanced handler serves the entry
    page; and where [open] raises another exception, nothing is
    written. *)
Theorem minimal_handler_no_fallback (w : World) (rl : RequestLine) :
  request_command rl = GET ->
  (request_path rl = "/" \/ request_path rl = EmptyString ->
   handle_request w SimpleHandler rl
   = option_map (written (http09 rl))
       (SimpleHTTPRequestHandler_do_GET w SimpleHandler "/demo-perfect.html"))
  /\ (request_path rl <> "/" -> request_path rl <> EmptyString ->
      handle_request w SimpleHandler rl
      = option_map (written (http09 rl))
          (SimpleHTTPRequestHandler_do_GET w SimpleHandler (request_path rl))
      /\ (isdir w (translate_path w (request_path rl)) = false ->
          open_file w (translate_path w (request_path rl)) = OpenOSError ->
          exists wr,
            handle_request w SimpleHandler rl = Some wr
            /\ status_line wr = (if http09 rl then None else Some 404)
            /\ wire_body wr = error_page w 404 "File not found")
      /\ (isdir w (translate_path w (request_path rl)) = false ->
          endswith "/" (translate_path w (request_path rl)) = false ->
          open_file w (translate_path w (request_path rl)) = OpenRaises ->
          handle_request w SimpleHandler rl = None)).
Proof.
  intros Hc.
  assert (Hh : handle_request w SimpleHandler rl
               = option_map (written (http09 rl))
                   (simple_do_GET w (request_path rl))).
  { unfold handle_request. now rewrite Hc. }
  rewrite Hh. unfold simple_do_GET. split.
  - intros [-> | ->]; reflexivity.
  - intros H1 H2. apply String.eqb_neq in H1, H2. rewrite H1, H2. cbn [orb].
    split; [reflexivity|]. split.
    + intros Hd Ho. rewrite (static_get_missing w SimpleHandler _ Hd Ho).
      cbn [option_map]. eexists. split; [reflexivity|].
      unfold written. destruct (http09 rl); cbn; split; reflexivity.
    + intros Hd He Ho. now rewrite (static_get_raises w SimpleHandler _ Hd He Ho).
Qed.

(** X14, witness: [GET /about HTTP/1.x] on a root that holds only the
    entry file. *)
Lemma minimal_handler_no_fallback_witness :
  (request_command (Full GET "/about") = GET
   /\ isdir entry_only (translate_path entry_only "/about") = false
   /\ open_file entry_only (translate_path entry_only "/about") = OpenOSError)
  /\ (exists wr,
        handle_request entry_only SimpleHandler (Full GET "/about") = Some wr
        /\ status_line wr = Some 404
        /\ wire_body wr = error_page entry_only 404 "File not found")
  /\ route entry_only "/about" = Some (RewriteTo "/demo-perfect.html").
Proof.
  split; [repeat split; reflexivity|]. split; [|reflexivity].
  destruct (proj2 (minimal_handler_no_fallback entry_only (Full GET "/about")
                     eq_refl)) as (_ & N & _); try discriminate.
  exact (N eq_refl eq_refl).
Defined.

(** ** The cache policy and the query string *)

Lemma length_append (a b : string) :
  String.length (a ++ b) = String.length a + String.length b.
Proof. induction a as [|c a IH]; simpl; [reflexivity | now rewrite IH]. Qed.

Lemma append_assoc (a b c : string) : (a ++ b) ++ c = a ++ (b ++ c).
Proof. induction a as [|x a IH]; simpl; [reflexivity | now rewrite IH]. Qed.

Lemma drop_append_length (a b : string) :
  drop (String.length a) (a ++ b) = b.
Proof. induction a as [|c a IH]; simpl; [reflexivity | exact IH]. Qed.

Lemma take_drop (n : nat) (s : string) : take n s ++ drop n s = s.
Proof.
  revert s. induction n as [|n IH]; intros s; [reflexivity|].
  destruct s as [|c s]; simpl; [reflexivity | now rewrite IH].
Qed.

(** [s.endswith(suf)] holds exactly when [s] is something followed by
    [suf]. *)
Lemma endswith_iff (suf s : string) :
  endswith suf s = true <-> exists a, s = a ++ suf.
Proof.
  unfold endswith. split.
  - intros H. apply andb_true_iff in H as [_ H]. apply String.eqb_eq in H.
    exists (take (String.length s - String.length suf) s).
    rewrite <- H at 2. symmetry. apply take_drop.
  - intros [a ->]. rewrite length_append. apply andb_true_iff. split.
    + apply Nat.leb_le. lia.
    + replace (String.length a + String.length suf - String.length suf)
        with (String.length a) by lia.
      rewrite drop_append_length. apply String.eqb_refl.
Qed.

(** Two ways to cut one string overlap. *)
Lemma append_split (a b c d : string) :
  a ++ b = c ++ d ->
  (exists e, c = a ++ e /\ b = e ++ d) \/ (exists e, a = c ++ e /\ d = e ++ b).
Proof.
  revert c. induction a as [|x a IH]; intros c H.
  - left. exists c. now split.
  - destruct c as [|y c].
    + right. exists (String x a). now split.
    + simpl in H. injection H as -> H.
      destruct (IH c H) as [(e & -> & ->) | (e & -> & ->)].
      * left. now exists e.
      * right. now exists e.
Qed.

Lemma endswith_after_query (suf p q : string) :
  contains "?" suf = false ->
  endswith suf (p ++ String "?" q) = endswith suf (String "?" q).
Proof.
  intros Hs.
  destruct (endswith suf (String "?" q)) eqn:E.
  - apply endswith_iff in E as [a E]. apply endswith_iff.
    exists (p ++ a). now rewrite E, append_assoc.
  - destruct (endswith suf (p ++ String "?" q)) eqn:F; [|reflexivity].
    apply endswith_iff in F as [a F].
    apply append_split in F as [(e & -> & F) | (e & -> & F)].
    + assert (endswith suf (String "?" q) = true)
        by (apply endswith_iff; now exists e).
      congruence.
    + rewrite F, contains_app in Hs. cbn in Hs.
      rewrite orb_true_r in Hs. discriminate.
Qed.

(** For a target with a query string [end_headers] sends what it would
    send for the query string alone. *)
Lemma end_headers_after_query (p q : string) :
  end_headers PerfectSPAHandler (p ++ "?" ++ q)
  = end_headers PerfectSPAHandler ("?" ++ q).
Proof.
  cbn [end_headers]. change ("?" ++ q) with (String "?" q).
  now rewrite !endswith_after_query.
Qed.

Lemma respond_headers_suffix (w : World) (h : Handler) (path : string)
    (code : nat) (sent : list header) (content : string) :
  exists pre,
    headers (respond w h path code sent content)
    = (pre ++ end_headers h path)%list.
Proof.
  exists (send_response w ++ sent)%list. unfold respond. cbn [headers].
  now rewrite app_assoc.
Qed.

(** The headers the static layer's answer ends with. *)
Lemma static_get_headers_suffix (w : World) (h : Handler) (path : string)
    (r : Response) :
  SimpleHTTPRequestHandler_do_GET w h path = Some r ->
  exists pre, headers r = (pre ++ end_headers h path)%list.
Proof.
  unfold SimpleHTTPRequestHandler_do_GET.
  destruct (isdir w (translate_path w path)).
  { destruct (serve_directory w path (translate_path w path)) as [r0|];
      cbn [option_map]; [|discriminate].
    intros [= <-]. now exists (headers r0). }
  destruct (endswith "/" (translate_path w path)).
  { intros [= <-]. apply respond_headers_suffix. }
  destruct (open_file w (translate_path w path)); [| |discriminate].
  { destruct (serve_file w (translate_path w path)) as [r0|];
      cbn [option_map]; [|discriminate].
    intros [= <-]. now exists (headers r0). }
  intros [= <-]. apply respond_headers_suffix.
Qed.

(** A payload's only [Cache-Control] lines are those of [end_headers]. *)
Lemma payload_cache_control (w : World) (path : string) (kind : Payload)
    (v : string) :
  In ("Cache-Control", v) (headers (serve_payload w path kind))
  <-> In ("Cache-Control", v) (end_headers PerfectSPAHandler path).
Proof.
  destruct kind;
    unfold serve_payload, handle_api_request, handle_metrics_request,
      handle_health_check, serve_service_worker, serve_manifest, respond,
      send_response;
    cbn [headers]; rewrite !in_app_iff;
    (split; [intros [H | [H | H]]; [| |exact H] | tauto]);
    cbn in H;
    repeat (destruct H as [H|H]; [discriminate H|]); contradiction.
Qed.

(** X15.  The cache policy is chosen from the raw target, query string
    included.  For an HTTP/1.x GET on a target with a query string that
    [do_GET] does not rewrite, the headers written end with what
    [end_headers] sends for the query string alone; and when the answer is
    a fixed payload, those are its only [Cache-Control] lines: none for
    [/sw.js?v=3], though [/sw.js] gets the long-lived one. *)
Theorem cache_policy_reads_query (w : World) (rl : RequestLine) (p q : string)
    (wr : Wire) :
  request_command rl = GET ->
  http09 rl = false ->
  request_path rl = p ++ "?" ++ q ->
  (forall t, route w (request_path rl) <> Some (RewriteTo t)) ->
  handle_request w PerfectSPAHandler rl = Some wr ->
  (exists pre,
     wire_headers wr = (pre ++ end_headers PerfectSPAHandler ("?" ++ q))%list)
  /\ (forall kind,
        route w (request_path rl) = Some (ServeReservedPayload kind) ->
        forall v,
          In ("Cache-Control", v) (wire_headers wr)
          <-> In ("Cache-Control", v) (end_headers PerfectSPAHandler ("?" ++ q))).
Proof.
  intros Hc Hv Hp Hn. rewrite (handle_request_get w rl Hc), Hv.
  destruct (do_GET w (request_path rl)) as [r|] eqn:E; [|discriminate].
  intros [= <-]. cbn [written wire_headers].
  rewrite <- (end_headers_after_query p q), <- Hp.
  unfold do_GET in E. split.
  - destruct (route w (request_path rl)) as [[kind|t|]|] eqn:R;
      try discriminate.
    + injection E as <-. destruct kind; apply respond_headers_suffix.
    + exfalso. now apply (Hn t).
    + now apply static_get_headers_suffix in E.
  - intros kind R v. rewrite R in E. injection E as <-.
    apply payload_cache_control.
Qed.

(** X15, witness: [GET /sw.js?v=3 HTTP/1.x] carries no [Cache-Control],
    [GET /sw.js HTTP/1.x] the long-lived one. *)
Lemma cache_policy_reads_query_witness :
  (request_path (Full GET "/sw.js?v=3") = "/sw.js" ++ "?" ++ "v=3"
   /\ route empty_root (request_path (Full GET "/sw.js?v=3"))
      = Some (ServeReservedPayload service_worker))
  /\ (forall wr v,
        handle_request empty_root PerfectSPAHandler (Full GET "/sw.js?v=3") = Some wr ->
        ~ In ("Cache-Control", v) (wire_headers wr))
  /\ (exists wr,
        handle_request empty_root PerfectSPAHandler (Full GET "/sw.js") = Some wr
        /\ In ("Cache-Control", "public, max-age=31536000, immutable")
              (wire_headers wr)).
Proof.
  split; [split; reflexivity|]. split.
  - intros wr v Hw Hin.
    assert (N : forall t, route empty_root (request_path (Full GET "/sw.js?v=3"))
                          <> Some (RewriteTo t)) by (intros t; discriminate).
    destruct (cache_policy_reads_query empty_root (Full GET "/sw.js?v=3")
                "/sw.js" "v=3" wr eq_refl eq_refl eq_refl N Hw) as (_ & H).
    apply (H service_worker eq_refl v) in Hin. cbn in Hin.
    repeat (destruct Hin as [Hin|Hin]; [discriminate Hin|]). exact Hin.
  - eexists. split; [reflexivity|]. cbn. tauto.
Defined.

(** ** Rewrites are transparent *)

Lemma route_page (w : World) (t : string) :
  t = "/shift-system-spa.html" \/ t = "/demo-perfect.html" ->
  route w t = Some ServeStaticOrFallback.
Proof.
  intros [-> | ->].
  - rewrite (route_not_reserved w _ "/shift-system-spa.html") by reflexivity.
    cbn. now destruct (resolves w "/shift-system-spa.html").
  - rewrite (route_not_reserved w _ "/demo-perfect.html") by reflexivity.
    cbn. now destruct (resolves w "/demo-perfect.html").
Qed.

(** X16.  A rewritten request is answered exactly as a request for the
    page itself: same status, same headers, same body, and the same
    failure if the static layer fails.  The page is not rewritten again. *)
Theorem rewrite_transparent (w : World) (p t : string) :
  route w p = Some (RewriteTo t) ->
  route w t = Some ServeStaticOrFallback
  /\ do_GET w p = do_GET w t.
Proof.
  intros Hr.
  pose proof (route_page w t (route_rewrite_targets w p t Hr)) as Ht.
  split; [exact Ht|]. unfold do_GET. now rewrite Hr, Ht.
Qed.

(** X16, witness: [/dashboard/settings] on a root that holds only the
    entry file. *)
Lemma rewrite_transparent_witness :
  route entry_only "/dashboard/settings" = Some (RewriteTo "/demo-perfect.html")
  /\ route entry_only "/demo-perfect.html" = Some ServeStaticOrFallback
  /\ do_GET entry_only "/dashboard/settings" = do_GET entry_only "/demo-perfect.html".
Proof.
  split; [reflexivity|].
  apply (rewrite_transparent entry_only "/dashboard/settings" "/demo-perfect.html").
  reflexivity.
Defined.
